(** * The K8sNativeValidation driver: source schema and VAP transformation

    A shallow embedding of [constraint/pkg/client/drivers/k8scel/schema/schema.go]
    and of the transformation exercised by
    [constraint/pkg/client/drivers/k8scel/transform/make_vap_objects_test.go],
    followed by the properties of the validator, of the expression accessors
    and of the two compilers.

    Conventions of the embedding:
    - a Go slice is an [option (list T)], [None] being the nil slice, wherever
      the code builds one; slices that are only read ([range], [len]) are plain
      lists, since neither operation tells nil from empty;
    - a Go pointer that may be nil is an [option];
    - a Go function returning [(T, error)] returns a pair whose second
      component is [None] for a nil error;
    - a run-time panic is an explicit outcome. *)

From Stdlib Require Import Ascii String.
From stdpp Require Import base list strings gmap.

Set Warnings "-register-all".

(** ** Go run-time notions used by the driver *)

Module golang.

(** A slice value; [None] is the nil slice. *)
Definition slice (T : Type) : Type := option (list T).

Definition elems {T} (s : slice T) : list T := default [] s.

Definition len {T} (s : slice T) : nat := length (elems s).

(** [append(s, xs...)]: appending nothing to nil leaves nil. *)
Definition append {T} (s : slice T) (xs : list T) : slice T :=
  match s, xs with
  | None, [] => None
  | None, _ => Some xs
  | Some l, _ => Some (l ++ xs)
  end.

(** [make([]T, n)]: a non-nil slice of [n] zero values. *)
Definition make {T} (zero : T) (n : nat) : list T := replicate n zero.

(** [for i, x := range l { if g x = Some b then out[i] = b }] on a slice
    [out]; every ranging loop of the driver that stores by index has this
    shape. *)
Definition range_store {A B} (g : A → option B) (l : list A) (out : list B) : list B :=
  foldl (λ acc p, match g p.2 with
                  | Some b => <[p.1 := b]> acc
                  | None => acc
                  end) out (imap pair l).

(** [var out []T; for _, x := range l { out = append(out, f x) }]. *)
Definition range_append {A B} (f : A → B) (l : list A) : slice B :=
  foldl (λ acc x, append acc [f x]) None l.

(** Package-level error variables; [errors.Is] compares them by identity. *)
Inductive sentinel : Set :=
| ErrBadType
| ErrMissingField
| ErrBadMatchCondition
| ErrBadVariable
| ErrBadFailurePolicy
| ErrBadEnforcementAction.

Definition sentinel_eqb (a b : sentinel) : bool :=
  match a, b with
  | ErrBadType, ErrBadType
  | ErrMissingField, ErrMissingField
  | ErrBadMatchCondition, ErrBadMatchCondition
  | ErrBadVariable, ErrBadVariable
  | ErrBadFailurePolicy, ErrBadFailurePolicy
  | ErrBadEnforcementAction, ErrBadEnforcementAction => true
  | _, _ => false
  end.

(** An error value.  [Wrap s text] is [fmt.Errorf("%w" + format, s, args...)]
    with [text] the formatted remainder that follows the wrapped error's own
    message. *)
Inductive error : Type :=
| Var (s : sentinel)
| New (text : string)
| Wrap (s : sentinel) (text : string)
| External (text : string).

(** [errors.Is(err, target)] for a sentinel target. *)
Definition errors_Is (err : error) (target : sentinel) : bool :=
  match err with
  | Var s | Wrap s _ => sentinel_eqb s target
  | New _ | External _ => false
  end.

(** [strings.HasPrefix(s, prefix)]. *)
Definition HasPrefix (s pre : string) : bool := String.prefix pre s.

Definition dquote : ascii := "034"%char.
Definition backslash : ascii := "092"%char.

(** The [%q] verb on a string of printable ASCII characters: the string
    between double quotes, quotes and backslashes escaped. *)
Fixpoint quote_body (s : string) : string :=
  match s with
  | EmptyString => String dquote EmptyString
  | String c r =>
      if bool_decide (c = dquote ∨ c = backslash)
      then String backslash (String c (quote_body r))
      else String c (quote_body r)
  end.

Definition Quote (s : string) : string := String dquote (quote_body s).

(** The outcome of a call: a normal return or a panic. *)
Inductive outcome (A : Type) : Type :=
| Ret (a : A)
| Panic (reason : string).
Arguments Ret {A} a.
Arguments Panic {A} reason.

(** The dynamic values an [interface{}] holds after JSON decoding. *)
Inductive Value : Type :=
| VNil
| VBool (b : bool)
| VNumber (z : Z)
| VString (s : string)
| VSlice (l : list Value)
| VMap (m : gmap string Value).

(** [strings.ToLower] on ASCII text: the letters [A]-[Z] are mapped to
    [a]-[z], every other byte is kept. *)
Definition ToLower_ascii (c : ascii) : ascii :=
  let n := nat_of_ascii c in
  if bool_decide (65 ≤ n ≤ 90) then ascii_of_nat (n + 32) else c.

Fixpoint ToLower (s : string) : string :=
  match s with
  | EmptyString => EmptyString
  | String c r => String (ToLower_ascii c) (ToLower r)
  end.

End golang.

Import golang.

Module runtime.

(** [runtime.DefaultUnstructuredConverter], a library object:
    [FromUnstructured(v, out)] fills [out] from the map [v] and may fail;
    [ToUnstructured(in)] is the converse. *)
Class UnstructuredConverter (T : Type) : Type :=
  { FromUnstructured : gmap string Value → T → T * option error;
    ToUnstructured : T → gmap string Value * option error }.

End runtime.

(** ** Kubernetes API types the driver produces

    The declarations live outside the repository; the records list the fields
    the driver sets. *)

Module admissionv1.

(** [type FailurePolicyType string]. *)
Definition FailurePolicyType : Type := string.

(** Modelled from the spec: the constants [admissionv1.Fail] and
    [admissionv1.Ignore] are declared outside the repository; the spec names
    the two canonical literals. *)
Definition Fail : FailurePolicyType := "Fail".
Definition Ignore : FailurePolicyType := "Ignore".

End admissionv1.

Module metav1.

Module LabelSelectorRequirement.
Record t : Type := mk { Key : string; Operator : string; Values : list string }.
End LabelSelectorRequirement.

Module LabelSelector.
Record t : Type :=
  mk { MatchLabels : gmap string string;
       MatchExpressions : list LabelSelectorRequirement.t }.
End LabelSelector.

End metav1.

Module admissionv1alpha1.

Definition FailurePolicyType : Type := string.

(** Modelled from the spec: the same two literals, in the alpha API group. *)
Definition Fail : FailurePolicyType := "Fail".
Definition Ignore : FailurePolicyType := "Ignore".

Module MatchCondition.
Record t : Type := mk { Name : string; Expression : string }.
End MatchCondition.

Module Variable_.
Record t : Type := mk { Name : string; Expression : string }.
End Variable_.

Module Validation.
Record t : Type :=
  mk { Expression : string; Message : string; MessageExpression : string }.
End Validation.

Inductive OperationType : Set := OperationAll | Create | Update | Delete | Connect.

Inductive ValidationAction : Set := Deny | Warn | Audit.

Inductive ParameterNotFoundActionType : Set := AllowAction | DenyAction.

Module ParamKind.
Record t : Type := mk { APIVersion : string; Kind : string }.
End ParamKind.

Module NamedRuleWithOperations.
(** [RuleWithOperations.Operations] and the three lists of
    [RuleWithOperations.Rule]. *)
Record t : Type :=
  mk { Operations : list OperationType;
       APIGroups : list string;
       APIVersions : list string;
       Resources : list string }.
End NamedRuleWithOperations.

Module MatchResources.
Record t : Type :=
  mk { NamespaceSelector : option metav1.LabelSelector.t;
       ObjectSelector : option metav1.LabelSelector.t;
       ResourceRules : slice NamedRuleWithOperations.t }.

(** [&MatchResources{}]. *)
Definition zero : t := mk None None None.
End MatchResources.

Module ValidatingAdmissionPolicy.
(** [Name] is [ObjectMeta.Name]; the other fields are those of [Spec]. *)
Record t : Type :=
  mk { Name : string;
       ParamKind : option ParamKind.t;
       MatchConstraints : option MatchResources.t;
       MatchConditions : slice MatchCondition.t;
       Validations : slice Validation.t;
       FailurePolicy : option FailurePolicyType;
       Variables : slice Variable_.t }.
End ValidatingAdmissionPolicy.

Module ParamRef.
Record t : Type :=
  mk { Name : string;
       ParameterNotFoundAction : option ParameterNotFoundActionType }.
End ParamRef.

Module ValidatingAdmissionPolicyBinding.
(** [Name] is [ObjectMeta.Name]; the other fields are those of [Spec]. *)
Record t : Type :=
  mk { Name : string;
       PolicyName : string;
       ParamRef : option ParamRef.t;
       MatchResources : option MatchResources.t;
       ValidationActions : slice ValidationAction }.
End ValidatingAdmissionPolicyBinding.

End admissionv1alpha1.

(** The accessor types of the API server's CEL plug-in.  [ExpressionAccessor]
    is an interface; the driver stores pointers to four concrete types in it:
    [matchconditions.MatchCondition] and, from package
    [validatingadmissionpolicy], [Variable], [ValidationCondition] and
    [MessageExpressionCondition]. *)
Module cel.

Inductive ExpressionAccessor : Type :=
| MatchCondition (Name Expression : string)
| Variable_ (Name Expression : string)
| ValidationCondition (Expression Message : string)
| MessageExpressionCondition (MessageExpression : string).

(** [NamedExpressionAccessor] extends the interface; the same values inhabit it. *)
Definition NamedExpressionAccessor : Type := ExpressionAccessor.

End cel.

(** ** Constraint templates, as far as the driver reads them *)

Module templates.

Module Anything.
Record t : Type := mk { Value : golang.Value }.
End Anything.

Module Code.
Record t : Type := mk { Engine : string; Source : option Anything.t }.
End Code.

Module Target.
Record t : Type := mk { Code : list Code.t }.
End Target.

Module ConstraintTemplate.
(** [Name] is [ObjectMeta.Name], [Kind] is [Spec.CRD.Spec.Names.Kind] and
    [Targets] is [Spec.Targets]. *)
Record t : Type := mk { Name : string; Kind : string; Targets : list Target.t }.
End ConstraintTemplate.

End templates.

(** ** Package schema *)

Module schema.

Definition Name : string := "K8sNativeValidation".
Definition ReservedPrefix : string := "gatekeeper_internal_".
Definition ParamsName : string := "params".

Module Validation.
Record t : Type :=
  mk { Expression : string; Message : string; MessageExpression : string }.
End Validation.

Module MatchCondition.
Record t : Type := mk { Name : string; Expression : string }.
End MatchCondition.

Module Variable_.
Record t : Type := mk { Name : string; Expression : string }.
End Variable_.

Module Source.
Record t : Type :=
  mk { Validations : list Validation.t;
       FailurePolicy : option string;
       MatchConditions : list MatchCondition.t;
       Variables : list Variable_.t }.

(** [&Source{}]. *)
Definition zero : t := mk [] None [] [].
End Source.

Definition badMatchCondition (name : string) : error :=
  Wrap ErrBadMatchCondition
    (": " +:+ name +:+ " is not a valid match condition; cannot have "
       +:+ Quote ReservedPrefix +:+ " as a prefix").

Definition badVariablePrefix (name : string) : error :=
  Wrap ErrBadVariable
    (": " +:+ name +:+ " is not a valid variable; cannot have "
       +:+ Quote ReservedPrefix +:+ " as a prefix").

Definition badVariableParams : error :=
  Wrap ErrBadVariable
    (": " +:+ ParamsName +:+ " an invalid variable name, "
       +:+ Quote ParamsName +:+ " is a reserved keyword").

Definition badFailurePolicy (value : string) : error :=
  Wrap ErrBadFailurePolicy (": unrecognized failure policy: " +:+ value).

Fixpoint validateMatchConditions_range (l : list MatchCondition.t) : option error :=
  match l with
  | [] => None
  | condition :: rest =>
      if HasPrefix (MatchCondition.Name condition) ReservedPrefix
      then Some (badMatchCondition (MatchCondition.Name condition))
      else validateMatchConditions_range rest
  end.

Definition validateMatchConditions (in_ : Source.t) : option error :=
  validateMatchConditions_range (Source.MatchConditions in_).

Definition GetMatchConditions (in_ : Source.t)
  : slice (option cel.ExpressionAccessor) * option error :=
  match validateMatchConditions in_ with
  | Some err => (None, Some err)
  | None =>
      let matchConditions := make None (length (Source.MatchConditions in_)) in
      (Some (range_store
               (λ mc, Some (Some (cel.MatchCondition (MatchCondition.Name mc)
                                                     (MatchCondition.Expression mc))))
               (Source.MatchConditions in_) matchConditions),
       None)
  end.

Definition GetV1Alpha1MatchConditions (in_ : Source.t)
  : slice admissionv1alpha1.MatchCondition.t * option error :=
  match validateMatchConditions in_ with
  | Some err => (None, Some err)
  | None =>
      (range_append
         (λ mc, admissionv1alpha1.MatchCondition.mk (MatchCondition.Name mc)
                                                    (MatchCondition.Expression mc))
         (Source.MatchConditions in_),
       None)
  end.

Fixpoint validateVariables_range (l : list Variable_.t) : option error :=
  match l with
  | [] => None
  | v :: rest =>
      if HasPrefix (Variable_.Name v) ReservedPrefix
      then Some (badVariablePrefix (Variable_.Name v))
      else if String.eqb (Variable_.Name v) ParamsName
      then Some badVariableParams
      else validateVariables_range rest
  end.

Definition validateVariables (in_ : Source.t) : option error :=
  validateVariables_range (Source.Variables in_).

Definition GetVariables (in_ : Source.t)
  : slice (option cel.NamedExpressionAccessor) * option error :=
  match validateVariables in_ with
  | Some err => (None, Some err)
  | None =>
      let vars := make None (length (Source.Variables in_)) in
      (Some (range_store
               (λ v, Some (Some (cel.Variable_ (Variable_.Name v) (Variable_.Expression v))))
               (Source.Variables in_) vars),
       None)
  end.

Definition GetV1Alpha1Variables (in_ : Source.t)
  : slice admissionv1alpha1.Variable_.t * option error :=
  match validateVariables in_ with
  | Some err => (None, Some err)
  | None =>
      (range_append
         (λ v, admissionv1alpha1.Variable_.mk (Variable_.Name v) (Variable_.Expression v))
         (Source.Variables in_),
       None)
  end.

Definition GetValidations (in_ : Source.t)
  : slice (option cel.ExpressionAccessor) * option error :=
  let validations := make None (length (Source.Validations in_)) in
  (Some (range_store
           (λ validation,
              Some (Some (cel.ValidationCondition (Validation.Expression validation)
                                                  (Validation.Message validation))))
           (Source.Validations in_) validations),
   None).

Definition GetV1Alpha1Validatons (in_ : Source.t)
  : slice admissionv1alpha1.Validation.t * option error :=
  (range_append
     (λ v, admissionv1alpha1.Validation.mk (Validation.Expression v)
                                           (Validation.Message v)
                                           (Validation.MessageExpression v))
     (Source.Validations in_),
   None).

Definition GetMessageExpressions (in_ : Source.t)
  : slice (option cel.ExpressionAccessor) * option error :=
  let messageExpressions := make None (length (Source.Validations in_)) in
  (Some (range_store
           (λ validation,
              if negb (String.eqb (Validation.MessageExpression validation) EmptyString)
              then Some (Some (cel.MessageExpressionCondition
                                 (Validation.MessageExpression validation)))
              else None)
           (Source.Validations in_) messageExpressions),
   None).

Definition GetFailurePolicy (in_ : Source.t)
  : option admissionv1.FailurePolicyType * option error :=
  match Source.FailurePolicy in_ with
  | None => (None, None)
  | Some fp =>
      if String.eqb fp admissionv1.Fail then (Some admissionv1.Fail, None)
      else if String.eqb fp admissionv1.Ignore then (Some admissionv1.Ignore, None)
      else (None, Some (badFailurePolicy fp))
  end.

Definition GetV1alpha1FailurePolicy (in_ : Source.t)
  : option admissionv1alpha1.FailurePolicyType * option error :=
  match Source.FailurePolicy in_ with
  | None => (None, None)
  | Some fp =>
      if String.eqb fp admissionv1.Fail then (Some admissionv1alpha1.Fail, None)
      else if String.eqb fp admissionv1.Ignore then (Some admissionv1alpha1.Ignore, None)
      else (None, Some (badFailurePolicy fp))
  end.

Definition Validate (in_ : Source.t) : option error :=
  match validateMatchConditions in_ with
  | Some err => Some err
  | None =>
      match validateVariables in_ with
      | Some err => Some err
      | None =>
          match (GetFailurePolicy in_).2 with
          | Some err => Some err
          | None => None
          end
      end
  end.

Section Decoding.

Context `{!runtime.UnstructuredConverter Source.t}.

(** The receiver may be nil; so may the returned map. *)
Definition MustToUnstructured (in_ : option Source.t) : outcome (option (gmap string Value)) :=
  match in_ with
  | None => Ret None
  | Some in_ =>
      let '(out, err) := runtime.ToUnstructured in_ in
      match err with
      | Some err => Panic "cannot cast as unstructured"
      | None => Ret (Some out)
      end
  end.

Definition GetSource (code : templates.Code.t)
  : outcome (option Source.t * option error) :=
  match templates.Code.Source code with
  | None => Panic "nil pointer dereference"
  | Some rawCode =>
      match templates.Anything.Value rawCode with
      | VMap v =>
          let '(out, err) := runtime.FromUnstructured v Source.zero in
          match err with
          | Some err => Ret (None, Some err)
          | None =>
              match Validate out with
              | Some err => Ret (None, Some err)
              | None => Ret (Some out, None)
              end
          end
      | _ => Ret (None, Some (Var ErrBadType))
      end
  end.

(** The loop over [ct.Spec.Targets[0].Code].  It either returns from the
    function ([inl]) or ends, by [break] or by exhaustion, with the value
    [source] then has ([inr]). *)
Fixpoint GetSourceFromTemplate_range (codes : list templates.Code.t)
  : outcome ((option Source.t * option error) + option Source.t) :=
  match codes with
  | [] => Ret (inr None)
  | code :: rest =>
      if negb (String.eqb (templates.Code.Engine code) Name)
      then GetSourceFromTemplate_range rest
      else
        match GetSource code with
        | Panic reason => Panic reason
        | Ret (_, Some err) => Ret (inl (None, Some err))
        | Ret (source, None) => Ret (inr source)
        end
  end.

Definition GetSourceFromTemplate (ct : templates.ConstraintTemplate.t)
  : outcome (option Source.t * option error) :=
  if bool_decide (length (templates.ConstraintTemplate.Targets ct) ≠ 1)
  then Ret (None, Some (New "wrong number of targets defined, only 1 target allowed"))
  else
    match templates.ConstraintTemplate.Targets ct !! 0 with
    | None => Panic "index out of range"
    | Some target =>
        match GetSourceFromTemplate_range (templates.Target.Code target) with
        | Panic reason => Panic reason
        | Ret (inl early) => Ret early
        | Ret (inr None) => Ret (None, Some (New "K8sNativeValidation code not defined"))
        | Ret (inr (Some source)) => Ret (Some source, None)
        end
    end.

End Decoding.

End schema.

(** ** Package transform

    The two compilers of [make_vap_objects.go] are modelled from the
    specification, with the literals [make_vap_objects_test.go] expects. *)

Module transform.

(** The CEL snippets [matchExcludedNamespacesGlob], [matchNamespacesGlob],
    [matchNameGlob] and [matchKinds], which the test names without giving
    their text. *)
Class Snippets : Type :=
  { matchExcludedNamespacesGlob : string;
    matchNamespacesGlob : string;
    matchNameGlob : string;
    matchKinds : string }.

(** The fixed prefix of every generated object name. *)
Definition namePrefix : string := "gatekeeper-".

Definition paramKindAPIVersion : string := "constraints.gatekeeper.sh/v1beta1".

Definition paramsExpression : string :=
  "!has(params.spec) ? null : !has(params.spec.parameters) ? null: params.spec.parameters".

(** Modelled from the spec: the four synthesized match conditions, in the
    fixed order exclude-namespaces, include-namespaces, name glob, kind match;
    the names are those the test expects. *)
Definition AllMatchersV1Alpha1 `{Snippets} : list admissionv1alpha1.MatchCondition.t :=
  [ admissionv1alpha1.MatchCondition.mk
      "gatekeeper_internal_match_excluded_namespaces" matchExcludedNamespacesGlob;
    admissionv1alpha1.MatchCondition.mk
      "gatekeeper_internal_match_namespaces" matchNamespacesGlob;
    admissionv1alpha1.MatchCondition.mk
      "gatekeeper_internal_match_name" matchNameGlob;
    admissionv1alpha1.MatchCondition.mk
      "gatekeeper_internal_match_kinds" matchKinds ].

(** Modelled from the spec: the one synthesized variable, bound to the
    reserved parameter name. *)
Definition AllVariablesV1Alpha1 : list admissionv1alpha1.Variable_.t :=
  [ admissionv1alpha1.Variable_.mk schema.ParamsName paramsExpression ].

(** Modelled from the spec: the catch-all scope, every group, version and
    resource on every operation. *)
Definition matchEverything : admissionv1alpha1.MatchResources.t :=
  admissionv1alpha1.MatchResources.mk None None
    (Some [ admissionv1alpha1.NamedRuleWithOperations.mk
              [admissionv1alpha1.OperationAll] ["*"] ["*"] ["*"] ]).

(** [v, err := e; if err != nil { return nil, err }; k v] *)
Notation "'call' x ':=' e 'in' k" :=
  (match e with
   | (_, Some err) => Ret (None, Some err)
   | (x, None) => k
   end)
  (at level 10, x name, e at level 200, k at level 200, only parsing).

Section Compilers.

Context `{!runtime.UnstructuredConverter schema.Source.t} `{!Snippets}.

(** Modelled from the spec: [TemplateToPolicyDefinition], the
    policy-definition compiler of section 4.3, is declared in
    [make_vap_objects.go]. *)
Definition TemplateToPolicyDefinition (template : templates.ConstraintTemplate.t)
  : outcome (option admissionv1alpha1.ValidatingAdmissionPolicy.t * option error) :=
  match schema.GetSourceFromTemplate template with
  | Panic reason => Panic reason
  | Ret (_, Some err) => Ret (None, Some err)
  | Ret (None, None) => Panic "nil pointer dereference"
  | Ret (Some source, None) =>
      call matchConditions := schema.GetV1Alpha1MatchConditions source in
      let matchConditions := append matchConditions AllMatchersV1Alpha1 in
      call validations := schema.GetV1Alpha1Validatons source in
      call variables := schema.GetV1Alpha1Variables source in
      let variables := append variables AllVariablesV1Alpha1 in
      call failurePolicy := schema.GetV1alpha1FailurePolicy source in
      Ret (Some (admissionv1alpha1.ValidatingAdmissionPolicy.mk
                   (namePrefix +:+ ToLower (templates.ConstraintTemplate.Kind template))
                   (Some (admissionv1alpha1.ParamKind.mk
                            paramKindAPIVersion
                            (templates.ConstraintTemplate.Kind template)))
                   (Some matchEverything)
                   matchConditions
                   validations
                   failurePolicy
                   variables),
           None)
  end.

End Compilers.

(** Modelled from the spec: the policy instance handed to the binding
    compiler, a named object of some kind with optional
    [spec.match.namespaceSelector], [spec.match.labelSelector] and
    [spec.enforcementAction]. *)
Module Constraint.
Record t : Type :=
  mk { Name : string;
       Kind : string;
       NamespaceSelector : option metav1.LabelSelector.t;
       LabelSelector : option metav1.LabelSelector.t;
       EnforcementAction : option string }.
End Constraint.

(** The specification fixes the wrapped sentinel and that the message names
    the offending value, not the wording around it. *)
Definition badEnforcementAction (value : string) : error :=
  Wrap ErrBadEnforcementAction (": unrecognized enforcement action " +:+ value).

(** Modelled from the spec: the mapping of section 4.4 step 5. *)
Definition validationActions (enforcementAction : option string)
  : slice admissionv1alpha1.ValidationAction * option error :=
  match enforcementAction with
  | None => (Some [admissionv1alpha1.Deny], None)
  | Some action =>
      if String.eqb action "deny" then (Some [admissionv1alpha1.Deny], None)
      else if String.eqb action "warn" then (Some [admissionv1alpha1.Warn], None)
      else (None, Some (badEnforcementAction action))
  end.

(** Modelled from the spec: [ConstraintToBinding], the binding compiler of
    section 4.4, is declared in [make_vap_objects.go]. *)
Definition ConstraintToBinding (constraint : Constraint.t)
  : option admissionv1alpha1.ValidatingAdmissionPolicyBinding.t * option error :=
  match validationActions (Constraint.EnforcementAction constraint) with
  | (_, Some err) => (None, Some err)
  | (actions, None) =>
      (Some (admissionv1alpha1.ValidatingAdmissionPolicyBinding.mk
               (namePrefix +:+ Constraint.Name constraint)
               (namePrefix +:+ ToLower (Constraint.Kind constraint))
               (Some (admissionv1alpha1.ParamRef.mk
                        (Constraint.Name constraint)
                        (Some admissionv1alpha1.AllowAction)))
               (Some (admissionv1alpha1.MatchResources.mk
                        (Constraint.NamespaceSelector constraint)
                        (Constraint.LabelSelector constraint)
                        None))
               actions),
       None)
  end.

End transform.

(** ** Vocabulary of the statements *)

Definition reservedMatchCondition (c : schema.MatchCondition.t) : Prop :=
  HasPrefix (schema.MatchCondition.Name c) schema.ReservedPrefix = true.

Definition invalidVariable (v : schema.Variable_.t) : Prop :=
  HasPrefix (schema.Variable_.Name v) schema.ReservedPrefix = true
  ∨ schema.Variable_.Name v = schema.ParamsName.

(** The error [validateVariables] reports for an invalid variable. *)
Definition variableError (v : schema.Variable_.t) : error :=
  if HasPrefix (schema.Variable_.Name v) schema.ReservedPrefix
  then schema.badVariablePrefix (schema.Variable_.Name v)
  else schema.badVariableParams.

(** [text] contains [part]. *)
Definition mentions (text part : string) : Prop :=
  ∃ before after, text = before +:+ part +:+ after.

(** A template with a single target holding the given code entries. *)
Definition singleTarget (name kind : string) (codes : list templates.Code.t)
  : templates.ConstraintTemplate.t :=
  templates.ConstraintTemplate.mk name kind [templates.Target.mk codes].

(** The source a template embeds: the decoded payload of the first
    [K8sNativeValidation] code entry of its single target. *)
Definition embedsSource `{!runtime.UnstructuredConverter schema.Source.t}
    (template : templates.ConstraintTemplate.t) (source : schema.Source.t) : Prop :=
  ∃ skipped raw rest,
    templates.ConstraintTemplate.Targets template
    = [templates.Target.mk
         (skipped
          ++ templates.Code.mk schema.Name (Some (templates.Anything.mk (VMap raw)))
          :: rest)]
    ∧ Forall (λ code, templates.Code.Engine code ≠ schema.Name) skipped
    ∧ runtime.FromUnstructured raw schema.Source.zero = (source, None).

(** ** Fixtures of the test file *)

Module fixtures.

(** A converter for the examples: it writes and reads the four fields of a
    source under their JSON tags, leaving out empty [omitempty] fields. *)
Definition stringField (key value : string) : list (string * Value) :=
  match value with
  | EmptyString => []
  | _ => [(key, VString value)]
  end.

Definition sliceField (key : string) (values : list Value) : list (string * Value) :=
  match values with
  | [] => []
  | _ => [(key, VSlice values)]
  end.

Definition encodeValidation (v : schema.Validation.t) : Value :=
  VMap (list_to_map
          (stringField "expression" (schema.Validation.Expression v)
           ++ stringField "message" (schema.Validation.Message v)
           ++ stringField "messageExpression" (schema.Validation.MessageExpression v))).

Definition encodeMatchCondition (c : schema.MatchCondition.t) : Value :=
  VMap (list_to_map
          [("name", VString (schema.MatchCondition.Name c));
           ("expression", VString (schema.MatchCondition.Expression c))]).

Definition encodeVariable (v : schema.Variable_.t) : Value :=
  VMap (list_to_map
          (stringField "name" (schema.Variable_.Name v)
           ++ stringField "expression" (schema.Variable_.Expression v))).

Definition encodeSource (in_ : schema.Source.t) : gmap string Value :=
  list_to_map
    (sliceField "validations" (encodeValidation <$> schema.Source.Validations in_)
     ++ match schema.Source.FailurePolicy in_ with
        | Some fp => [("failurePolicy", VString fp)]
        | None => []
        end
     ++ sliceField "matchCondition" (encodeMatchCondition <$> schema.Source.MatchConditions in_)
     ++ sliceField "variables" (encodeVariable <$> schema.Source.Variables in_)).

Definition readString (m : gmap string Value) (key : string) : option string :=
  match m !! key with
  | None => Some EmptyString
  | Some (VString s) => Some s
  | Some _ => None
  end.

Definition readObjects (m : gmap string Value) (key : string)
  : option (list (gmap string Value)) :=
  match m !! key with
  | None => Some []
  | Some (VSlice l) => mapM (λ v, match v with VMap o => Some o | _ => None end) l
  | Some _ => None
  end.

Definition decodeValidation (o : gmap string Value) : option schema.Validation.t :=
  e ← readString o "expression";
  m ← readString o "message";
  me ← readString o "messageExpression";
  Some (schema.Validation.mk e m me).

Definition decodeMatchCondition (o : gmap string Value) : option schema.MatchCondition.t :=
  n ← readString o "name";
  e ← readString o "expression";
  Some (schema.MatchCondition.mk n e).

Definition decodeVariable (o : gmap string Value) : option schema.Variable_.t :=
  n ← readString o "name";
  e ← readString o "expression";
  Some (schema.Variable_.mk n e).

Definition decodeSource (m : gmap string Value) : option schema.Source.t :=
  vs ← readObjects m "validations" ≫= mapM decodeValidation;
  fp ← match m !! "failurePolicy" with
       | None => Some None
       | Some (VString s) => Some (Some s)
       | Some _ => None
       end;
  mcs ← readObjects m "matchCondition" ≫= mapM decodeMatchCondition;
  vars ← readObjects m "variables" ≫= mapM decodeVariable;
  Some (schema.Source.mk vs fp mcs vars).

Definition converter : runtime.UnstructuredConverter schema.Source.t :=
  {| runtime.FromUnstructured m out :=
       match decodeSource m with
       | Some in_ => (in_, None)
       | None => (out, Some (External "cannot restore struct from unstructured value"))
       end;
     runtime.ToUnstructured in_ := (encodeSource in_, None) |}.

(** Stand-ins for the four CEL snippets. *)
Definition snippets : transform.Snippets :=
  {| transform.matchExcludedNamespacesGlob := "matchExcludedNamespacesGlob";
     transform.matchNamespacesGlob := "matchNamespacesGlob";
     transform.matchNameGlob := "matchNameGlob";
     transform.matchKinds := "matchKinds" |}.

(** The template [TestTemplateToPolicyDefinition] builds around a raw source.
    A nil map stored in the payload is still a map, and reads as an empty one. *)
Definition template (kind : string) (rawSrc : option (gmap string Value))
  : templates.ConstraintTemplate.t :=
  singleTarget (ToLower kind) kind
    [ templates.Code.mk schema.Name
        (Some (templates.Anything.mk (VMap (default ∅ rawSrc)))) ].

Definition someValidation : schema.Validation.t :=
  schema.Validation.mk "1 == 1" "some fallback message"
    (String dquote ("some CEL string" +:+ String dquote EmptyString)).

(** The source of the test case [Valid Template]. *)
Definition validSource : schema.Source.t :=
  schema.Source.mk
    [someValidation]
    (Some "Fail")
    [schema.MatchCondition.mk "must_match_something" "true == true"]
    [schema.Variable_.mk "my_variable" "true"].

(** The source of the test case [Invalid Match Condition]. *)
Definition invalidMatchConditionSource : schema.Source.t :=
  schema.Source.mk
    [someValidation]
    (Some "Fail")
    [schema.MatchCondition.mk "gatekeeper_internal_match_something" "true == true"]
    [schema.Variable_.mk "my_variable" "true"].

(** The source of the test case [No Clobbering Params]. *)
Definition clobberingParamsSource : schema.Source.t :=
  schema.Source.mk
    [someValidation]
    (Some "Fail")
    [schema.MatchCondition.mk "match_something" "true == true"]
    [schema.Variable_.mk "params" "true"].

(** A source breaking both naming rules at once. *)
Definition doublyInvalidSource : schema.Source.t :=
  schema.Source.mk
    [someValidation]
    (Some "Fail")
    [schema.MatchCondition.mk "gatekeeper_internal_match_something" "true == true"]
    [schema.Variable_.mk "params" "true"].

(** The template of a test case: the source goes through
    [MustToUnstructured] first. *)
Definition templateOf (kind : string) (source : schema.Source.t)
  : templates.ConstraintTemplate.t :=
  match @schema.MustToUnstructured converter (Some source) with
  | Ret rawSrc => template kind rawSrc
  | Panic _ => template kind None
  end.

(** [newTestConstraint]: kind [FooTemplate], name [foo-name]; an empty
    enforcement action leaves the field unset. *)
Definition newTestConstraint (enforcementAction : string)
    (namespaceSelector labelSelector : option metav1.LabelSelector.t)
  : transform.Constraint.t :=
  transform.Constraint.mk "foo-name" "FooTemplate" namespaceSelector labelSelector
    (match enforcementAction with
     | EmptyString => None
     | _ => Some enforcementAction
     end).

Definition matchYes : metav1.LabelSelector.t :=
  metav1.LabelSelector.mk {[ "match" := "yes" ]} [].

Definition matchNSYes : metav1.LabelSelector.t :=
  metav1.LabelSelector.mk {[ "matchNS" := "yes" ]} [].

End fixtures.

(** * Properties *)

(** ** The ranging loops *)

Section Loops.

Context {A B : Type}.

Lemma range_store_from (g : A → option B) (z : B) (l : list A) (pre : list B) :
  foldl (λ acc p, match g p.2 with
                  | Some b => <[p.1 := b]> acc
                  | None => acc
                  end)
        (pre ++ replicate (length l) z)
        (imap (λ i x, (length pre + i, x)) l)
  = pre ++ ((λ x, default z (g x)) <$> l).
Proof.
  revert pre. induction l as [|x l IH]; intros pre; simpl; [done|].
  replace (length pre + 0) with (length pre) by lia.
  assert (Hstep : match g x with
                  | Some b => <[length pre := b]> (pre ++ z :: replicate (length l) z)
                  | None => pre ++ z :: replicate (length l) z
                  end = (pre ++ [default z (g x)]) ++ replicate (length l) z).
  { destruct (g x) as [b|]; simpl.
    - rewrite insert_app_r_alt by lia.
      replace (length pre - length pre) with 0 by lia.
      simpl. by rewrite <- app_assoc.
    - by rewrite <- app_assoc. }
  rewrite Hstep.
  rewrite (imap_ext _ (λ i y, (length (pre ++ [default z (g x)]) + i, y))).
  - rewrite IH. by rewrite <- app_assoc.
  - intros i y _. simpl. rewrite length_app. simpl. f_equal. lia.
Qed.

(** Storing by index into a fresh slice is a map over the ranged list. *)
Lemma range_store_make (g : A → option B) (z : B) (l : list A) :
  range_store g l (make z (length l)) = (λ x, default z (g x)) <$> l.
Proof.
  unfold range_store, make.
  exact (range_store_from g z l []).
Qed.

Lemma range_append_from (f : A → B) (l : list A) (acc : list B) :
  foldl (λ acc x, append acc [f x]) (Some acc) l = Some (acc ++ (f <$> l)).
Proof.
  revert acc. induction l as [|x l IH]; intros acc; simpl.
  - by rewrite app_nil_r.
  - rewrite IH. by rewrite <- app_assoc.
Qed.

(** Appending in a loop yields nil for an empty range and the mapped list
    otherwise. *)
Lemma range_append_spec (f : A → B) (l : list A) :
  range_append f l = match l with [] => None | _ => Some (f <$> l) end.
Proof.
  destruct l as [|x l]; [done|].
  unfold range_append. simpl. by rewrite range_append_from.
Qed.

Lemma range_append_elems (f : A → B) (l : list A) :
  elems (range_append f l) = f <$> l.
Proof. rewrite range_append_spec. by destruct l. Qed.

End Loops.

(** ** The naming checks *)

Lemma errors_Is_badMatchCondition name :
  errors_Is (schema.badMatchCondition name) ErrBadMatchCondition = true.
Proof. reflexivity. Qed.

Lemma errors_Is_variableError v :
  errors_Is (variableError v) ErrBadVariable = true.
Proof. unfold variableError. by destruct (HasPrefix _ _). Qed.

Lemma Quote_ReservedPrefix :
  Quote schema.ReservedPrefix
  = String dquote (schema.ReservedPrefix +:+ String dquote EmptyString).
Proof. reflexivity. Qed.

Lemma validateMatchConditions_range_None l :
  Forall (λ c, ¬ reservedMatchCondition c) l →
  schema.validateMatchConditions_range l = None.
Proof.
  unfold reservedMatchCondition.
  induction 1 as [|c l Hc _ IH]; simpl; [done|].
  by destruct (HasPrefix _ _).
Qed.

Lemma validateMatchConditions_range_first l :
  Exists reservedMatchCondition l →
  ∃ l1 c l2,
    l = l1 ++ c :: l2
    ∧ Forall (λ c, ¬ reservedMatchCondition c) l1
    ∧ reservedMatchCondition c
    ∧ schema.validateMatchConditions_range l
      = Some (schema.badMatchCondition (schema.MatchCondition.Name c)).
Proof.
  induction l as [|c l IH]; intros Hex; [by apply Exists_nil in Hex|].
  destruct (HasPrefix (schema.MatchCondition.Name c) schema.ReservedPrefix) eqn:Hc.
  - exists [], c, l. simpl. by rewrite Hc.
  - apply Exists_cons in Hex as [Hbad|Hex]; [unfold reservedMatchCondition in Hbad; congruence|].
    destruct (IH Hex) as (l1 & c' & l2 & -> & Hl1 & Hc' & Hres).
    exists (c :: l1), c', l2. simpl. rewrite Hc. repeat split; try done.
    constructor; [|done]. unfold reservedMatchCondition. congruence.
Qed.

Lemma invalidVariable_false v :
  HasPrefix (schema.Variable_.Name v) schema.ReservedPrefix = false →
  String.eqb (schema.Variable_.Name v) schema.ParamsName = false →
  ¬ invalidVariable v.
Proof.
  intros Hp Hn [H|H]; [congruence|].
  apply String.eqb_neq in Hn. done.
Qed.

Lemma validateVariables_range_None l :
  Forall (λ v, ¬ invalidVariable v) l →
  schema.validateVariables_range l = None.
Proof.
  induction 1 as [|v l Hv _ IH]; simpl; [done|].
  destruct (HasPrefix _ _) eqn:Hp; [by destruct Hv; left|].
  destruct (String.eqb _ _) eqn:Hn; [|done].
  apply String.eqb_eq in Hn. by destruct Hv; right.
Qed.

Lemma validateVariables_range_first l :
  Exists invalidVariable l →
  ∃ l1 v l2,
    l = l1 ++ v :: l2
    ∧ Forall (λ v, ¬ invalidVariable v) l1
    ∧ invalidVariable v
    ∧ schema.validateVariables_range l = Some (variableError v).
Proof.
  induction l as [|v l IH]; intros Hex; [by apply Exists_nil in Hex|].
  destruct (HasPrefix (schema.Variable_.Name v) schema.ReservedPrefix) eqn:Hp.
  { exists [], v, l. unfold variableError. simpl. rewrite Hp.
    repeat split; try done. by left. }
  destruct (String.eqb (schema.Variable_.Name v) schema.ParamsName) eqn:Hn.
  { exists [], v, l. unfold variableError. simpl. rewrite Hp, Hn.
    repeat split; try done. right. by apply String.eqb_eq. }
  apply Exists_cons in Hex as [Hbad|Hex]; [by apply invalidVariable_false in Hbad|].
  destruct (IH Hex) as (l1 & v' & l2 & -> & Hl1 & Hv' & Hres).
  exists (v :: l1), v', l2. simpl. rewrite Hp, Hn. repeat split; try done.
  constructor; [|done]. by apply invalidVariable_false.
Qed.

Lemma GetFailurePolicy_error_None in_ :
  schema.Source.FailurePolicy in_ = None
  ∨ schema.Source.FailurePolicy in_ = Some "Fail"
  ∨ schema.Source.FailurePolicy in_ = Some "Ignore" →
  (schema.GetFailurePolicy in_).2 = None.
Proof.
  unfold schema.GetFailurePolicy. by intros [-> | [-> | ->]].
Qed.

(** ** The validator and the accessors *)

(** C3 (amended).  When some match-condition name carries the reserved prefix,
    [Validate], [GetMatchConditions] and [GetV1Alpha1MatchConditions] all fail
    with the same error, which wraps [ErrBadMatchCondition] and whose text
    names the first offending entry and the quoted prefix; the accessors
    return a nil list with it.  When some variable name carries the prefix or
    is exactly [params], [GetVariables] and [GetV1Alpha1Variables] fail with
    an error wrapping [ErrBadVariable] and a nil list, and so does [Validate]
    provided no match-condition name carries the prefix. *)
Theorem reserved_names_rejected (in_ : schema.Source.t) :
  (Exists reservedMatchCondition (schema.Source.MatchConditions in_) →
   ∃ l1 c l2,
     schema.Source.MatchConditions in_ = l1 ++ c :: l2
     ∧ Forall (λ c, ¬ reservedMatchCondition c) l1
     ∧ reservedMatchCondition c
     ∧ let err :=
         Wrap ErrBadMatchCondition
           (": " +:+ schema.MatchCondition.Name c
            +:+ " is not a valid match condition; cannot have "
            +:+ String dquote (schema.ReservedPrefix +:+ String dquote EmptyString)
            +:+ " as a prefix") in
       errors_Is err ErrBadMatchCondition = true
       ∧ schema.Validate in_ = Some err
       ∧ schema.GetMatchConditions in_ = (None, Some err)
       ∧ schema.GetV1Alpha1MatchConditions in_ = (None, Some err))
  ∧ (Exists invalidVariable (schema.Source.Variables in_) →
     ∃ err,
       errors_Is err ErrBadVariable = true
       ∧ schema.GetVariables in_ = (None, Some err)
       ∧ schema.GetV1Alpha1Variables in_ = (None, Some err)
       ∧ (Forall (λ c, ¬ reservedMatchCondition c) (schema.Source.MatchConditions in_) →
          schema.Validate in_ = Some err)).
Proof.
  split.
  - intros Hex.
    destruct (validateMatchConditions_range_first _ Hex) as (l1 & c & l2 & Hl & Hl1 & Hc & Hres).
    exists l1, c, l2. repeat split; try done.
    + unfold schema.Validate, schema.validateMatchConditions. by rewrite Hres.
    + unfold schema.GetMatchConditions, schema.validateMatchConditions. by rewrite Hres.
    + unfold schema.GetV1Alpha1MatchConditions, schema.validateMatchConditions.
      by rewrite Hres.
  - intros Hex.
    destruct (validateVariables_range_first _ Hex) as (l1 & v & l2 & Hl & Hl1 & Hv & Hres).
    exists (variableError v). repeat split.
    + apply errors_Is_variableError.
    + unfold schema.GetVariables, schema.validateVariables. by rewrite Hres.
    + unfold schema.GetV1Alpha1Variables, schema.validateVariables. by rewrite Hres.
    + intros Hmc. unfold schema.Validate, schema.validateMatchConditions,
        schema.validateVariables.
      by rewrite (validateMatchConditions_range_None _ Hmc), Hres.
Qed.

(** C3, as stated, fails for [Validate]: on a source with a reserved-prefixed
    match condition and a variable named [params], a variable name is invalid
    yet [Validate] reports no [ErrBadVariable]. *)
Lemma Validate_not_always_ErrBadVariable :
  Exists invalidVariable (schema.Source.Variables fixtures.doublyInvalidSource)
  ∧ ¬ (∃ err, schema.Validate fixtures.doublyInvalidSource = Some err
              ∧ errors_Is err ErrBadVariable = true).
Proof.
  split.
  - apply Exists_cons_hd. by right.
  - intros (err & Hv & His). vm_compute in Hv. by simplify_eq.
Qed.

Lemma reserved_names_rejected_witness :
  (∃ err, errors_Is err ErrBadMatchCondition = true
          ∧ schema.Validate fixtures.invalidMatchConditionSource = Some err
          ∧ schema.GetMatchConditions fixtures.invalidMatchConditionSource = (None, Some err))
  ∧ (∃ err, errors_Is err ErrBadVariable = true
            ∧ schema.GetV1Alpha1Variables fixtures.clobberingParamsSource = (None, Some err)
            ∧ schema.Validate fixtures.clobberingParamsSource = Some err).
Proof.
  split.
  - destruct (reserved_names_rejected fixtures.invalidMatchConditionSource) as [H _].
    destruct H as (l1 & c & l2 & _ & _ & _ & His & Hv & Hg & _).
    + apply Exists_cons_hd. reflexivity.
    + eexists. split; [exact His|]. split; [exact Hv|exact Hg].
  - destruct (reserved_names_rejected fixtures.clobberingParamsSource) as [_ H].
    destruct H as (err & His & _ & Hg & Hv).
    + apply Exists_cons_hd. right. reflexivity.
    + exists err. split; [exact His|]. split; [exact Hg|].
      apply Hv. repeat constructor. discriminate.
Defined.

(** C6.  A source with no reserved-prefixed match-condition name, no
    reserved-prefixed variable name, no variable named [params], and a failure
    policy that is absent, [Fail] or [Ignore], passes [Validate]. *)
Theorem Validate_accepts (in_ : schema.Source.t) :
  Forall (λ c, HasPrefix (schema.MatchCondition.Name c) schema.ReservedPrefix = false)
         (schema.Source.MatchConditions in_) →
  Forall (λ v, HasPrefix (schema.Variable_.Name v) schema.ReservedPrefix = false
               ∧ schema.Variable_.Name v ≠ schema.ParamsName)
         (schema.Source.Variables in_) →
  schema.Source.FailurePolicy in_ = None
  ∨ schema.Source.FailurePolicy in_ = Some "Fail"
  ∨ schema.Source.FailurePolicy in_ = Some "Ignore" →
  schema.Validate in_ = None.
Proof.
  intros Hmc Hvar Hfp.
  unfold schema.Validate, schema.validateMatchConditions, schema.validateVariables.
  rewrite validateMatchConditions_range_None.
  - rewrite validateVariables_range_None.
    + by rewrite (GetFailurePolicy_error_None _ Hfp).
    + eapply Forall_impl; [exact Hvar|].
      intros v [Hp Hn] [H|H]; congruence.
  - eapply Forall_impl; [exact Hmc|].
    unfold reservedMatchCondition. intros c Hc. congruence.
Qed.

Lemma Validate_accepts_witness :
  schema.Validate fixtures.validSource = None.
Proof.
  apply Validate_accepts.
  - repeat constructor.
  - repeat constructor. discriminate.
  - right. left. reflexivity.
Defined.

(** C7.  Both failure-policy accessors return [(nil, nil)] for an absent
    policy, the matching enum value for exactly [Fail] and [Ignore], and for
    any other string a nil value with an error that wraps
    [ErrBadFailurePolicy] and ends with the offending value. *)
Theorem GetFailurePolicy_cases (in_ : schema.Source.t) :
  match schema.Source.FailurePolicy in_ with
  | None =>
      schema.GetFailurePolicy in_ = (None, None)
      ∧ schema.GetV1alpha1FailurePolicy in_ = (None, None)
  | Some fp =>
      (fp = "Fail" →
       schema.GetFailurePolicy in_ = (Some admissionv1.Fail, None)
       ∧ schema.GetV1alpha1FailurePolicy in_ = (Some admissionv1alpha1.Fail, None))
      ∧ (fp = "Ignore" →
         schema.GetFailurePolicy in_ = (Some admissionv1.Ignore, None)
         ∧ schema.GetV1alpha1FailurePolicy in_ = (Some admissionv1alpha1.Ignore, None))
      ∧ (fp ≠ "Fail" → fp ≠ "Ignore" →
         let err := Wrap ErrBadFailurePolicy (": unrecognized failure policy: " +:+ fp) in
         errors_Is err ErrBadFailurePolicy = true
         ∧ schema.GetFailurePolicy in_ = (None, Some err)
         ∧ schema.GetV1alpha1FailurePolicy in_ = (None, Some err))
  end.
Proof.
  unfold schema.GetFailurePolicy, schema.GetV1alpha1FailurePolicy.
  destruct (schema.Source.FailurePolicy in_) as [fp|]; [|done].
  split; [by intros ->|]. split; [by intros ->|].
  intros H1 H2. apply String.eqb_neq in H1, H2.
  unfold admissionv1.Fail, admissionv1.Ignore. by rewrite H1, H2.
Qed.

(** The failure policy is compared case-sensitively. *)
Lemma GetFailurePolicy_cases_witness :
  schema.GetFailurePolicy (schema.Source.mk [] (Some "fail") [] [])
  = (None, Some (Wrap ErrBadFailurePolicy ": unrecognized failure policy: fail"))
  ∧ schema.GetV1alpha1FailurePolicy (schema.Source.mk [] (Some "Ignore") [] [])
    = (Some admissionv1alpha1.Ignore, None).
Proof.
  split.
  - pose proof (GetFailurePolicy_cases (schema.Source.mk [] (Some "fail") [] [])) as H.
    simpl in H. destruct H as (_ & _ & H).
    destruct H as (_ & H & _); [discriminate|discriminate|]. exact H.
  - pose proof (GetFailurePolicy_cases (schema.Source.mk [] (Some "Ignore") [] [])) as H.
    simpl in H. destruct H as (_ & H & _).
    destruct H as (_ & H); [reflexivity|]. exact H.
Defined.

(** C9.  The validation accessors map the source's validations one to one and
    in order.  [GetValidations] copies expression and message into
    [ValidationCondition]s; [GetMessageExpressions] fills the slot of each
    validation with its message-expression and leaves it nil when that is
    empty; [GetV1Alpha1Validatons] copies the three fields.  None of them
    fails, and every result is as long as the source list. *)
Theorem validations_copied (in_ : schema.Source.t) :
  schema.GetValidations in_
  = (Some ((λ v, Some (cel.ValidationCondition (schema.Validation.Expression v)
                                                (schema.Validation.Message v)))
             <$> schema.Source.Validations in_),
     None)
  ∧ schema.GetMessageExpressions in_
    = (Some ((λ v, if String.eqb (schema.Validation.MessageExpression v) EmptyString
                   then None
                   else Some (cel.MessageExpressionCondition
                                (schema.Validation.MessageExpression v)))
               <$> schema.Source.Validations in_),
       None)
  ∧ (schema.GetV1Alpha1Validatons in_).2 = None
  ∧ elems (schema.GetV1Alpha1Validatons in_).1
    = (λ v, admissionv1alpha1.Validation.mk (schema.Validation.Expression v)
                                            (schema.Validation.Message v)
                                            (schema.Validation.MessageExpression v))
        <$> schema.Source.Validations in_
  ∧ len (schema.GetValidations in_).1 = length (schema.Source.Validations in_)
  ∧ len (schema.GetMessageExpressions in_).1 = length (schema.Source.Validations in_)
  ∧ len (schema.GetV1Alpha1Validatons in_).1 = length (schema.Source.Validations in_).
Proof.
  assert (Hv : schema.GetValidations in_
               = (Some ((λ v, Some (cel.ValidationCondition (schema.Validation.Expression v)
                                                             (schema.Validation.Message v)))
                          <$> schema.Source.Validations in_), None)).
  { unfold schema.GetValidations. by rewrite range_store_make. }
  assert (Hm : schema.GetMessageExpressions in_
               = (Some ((λ v, if String.eqb (schema.Validation.MessageExpression v) EmptyString
                              then None
                              else Some (cel.MessageExpressionCondition
                                           (schema.Validation.MessageExpression v)))
                          <$> schema.Source.Validations in_), None)).
  { unfold schema.GetMessageExpressions. rewrite range_store_make.
    do 2 f_equal. apply list_fmap_ext. intros i v _.
    by destruct (String.eqb _ _). }
  rewrite Hv, Hm. unfold schema.GetV1Alpha1Validatons, len. simpl.
  rewrite range_append_elems, !length_fmap. done.
Qed.

(** C10.  [Validate] checks match-condition names, then variable names, then
    the failure policy, and returns the first error met: an error of an
    earlier check is returned whatever the later checks would say.  A source
    with both a reserved-prefixed match-condition name and an invalid variable
    name gets [ErrBadMatchCondition], not [ErrBadVariable]. *)
Theorem Validate_order (in_ : schema.Source.t) :
  (∀ err, schema.validateMatchConditions in_ = Some err → schema.Validate in_ = Some err)
  ∧ (schema.validateMatchConditions in_ = None →
     ∀ err, schema.validateVariables in_ = Some err → schema.Validate in_ = Some err)
  ∧ (schema.validateMatchConditions in_ = None →
     schema.validateVariables in_ = None →
     schema.Validate in_ = (schema.GetFailurePolicy in_).2)
  ∧ (Exists reservedMatchCondition (schema.Source.MatchConditions in_) →
     Exists invalidVariable (schema.Source.Variables in_) →
     ∃ err, schema.Validate in_ = Some err
            ∧ errors_Is err ErrBadMatchCondition = true
            ∧ errors_Is err ErrBadVariable = false).
Proof.
  unfold schema.Validate. repeat split.
  - by intros err ->.
  - by intros -> err ->.
  - intros -> ->. by destruct (schema.GetFailurePolicy in_).2.
  - intros Hmc _.
    destruct (validateMatchConditions_range_first _ Hmc) as (l1 & c & l2 & _ & _ & _ & Hres).
    unfold schema.validateMatchConditions. rewrite Hres. by eexists.
Qed.

Lemma Validate_order_witness :
  ∃ err, schema.Validate fixtures.doublyInvalidSource = Some err
         ∧ errors_Is err ErrBadMatchCondition = true
         ∧ errors_Is err ErrBadVariable = false.
Proof.
  destruct (Validate_order fixtures.doublyInvalidSource) as (_ & _ & _ & H).
  apply H.
  - apply Exists_cons_hd. reflexivity.
  - apply Exists_cons_hd. right. reflexivity.
Defined.

(** ** Extracting the source of a template *)

Section SourceOfTemplate.

Context `{!runtime.UnstructuredConverter schema.Source.t}.

Lemma engine_differs code :
  templates.Code.Engine code ≠ schema.Name →
  negb (String.eqb (templates.Code.Engine code) schema.Name) = true.
Proof. intros Hne. apply String.eqb_neq in Hne. by rewrite Hne. Qed.

Lemma GetSourceFromTemplate_range_skip skipped codes :
  Forall (λ code, templates.Code.Engine code ≠ schema.Name) skipped →
  schema.GetSourceFromTemplate_range (skipped ++ codes)
  = schema.GetSourceFromTemplate_range codes.
Proof.
  induction 1 as [|code skipped Hcode _ IH]; simpl; [done|].
  by rewrite (engine_differs _ Hcode).
Qed.

Lemma GetSource_error_nil code source err :
  schema.GetSource code = Ret (source, Some err) → source = None.
Proof.
  unfold schema.GetSource. intros Hret.
  repeat case_match; by simplify_eq.
Qed.

Lemma GetSourceFromTemplate_range_early codes early :
  schema.GetSourceFromTemplate_range codes = Ret (inl early) → early.1 = None.
Proof.
  induction codes as [|code codes IH]; simpl; [done|].
  destruct (negb _); [done|].
  intros Hret. repeat case_match; by simplify_eq.
Qed.

Lemma single_target_checked (target : templates.Target.t) :
  bool_decide (length [target] ≠ 1) = false.
Proof. by apply bool_decide_eq_false_2; simpl; intros ?. Qed.

(** C8.  [GetSourceFromTemplate] fails, with a nil source, unless the template
    has exactly one target; within that target, code entries of another
    engine are passed over, the first [K8sNativeValidation] entry decides, and
    a target with no such entry is an error; [GetSource] answers [ErrBadType]
    to a payload that is not a map; and whenever either function returns an
    error the source it returns is nil. *)
Theorem GetSourceFromTemplate_errors (ct : templates.ConstraintTemplate.t) :
  (length (templates.ConstraintTemplate.Targets ct) ≠ 1 →
   schema.GetSourceFromTemplate ct
   = Ret (None, Some (New "wrong number of targets defined, only 1 target allowed")))
  ∧ (∀ name kind skipped codes,
       Forall (λ code, templates.Code.Engine code ≠ schema.Name) skipped →
       schema.GetSourceFromTemplate (singleTarget name kind (skipped ++ codes))
       = schema.GetSourceFromTemplate (singleTarget name kind codes))
  ∧ (∀ name kind code rest,
       templates.Code.Engine code = schema.Name →
       schema.GetSourceFromTemplate (singleTarget name kind (code :: rest))
       = schema.GetSourceFromTemplate (singleTarget name kind [code]))
  ∧ (∀ target,
       templates.ConstraintTemplate.Targets ct = [target] →
       Forall (λ code, templates.Code.Engine code ≠ schema.Name)
              (templates.Target.Code target) →
       schema.GetSourceFromTemplate ct
       = Ret (None, Some (New "K8sNativeValidation code not defined")))
  ∧ (∀ code payload,
       templates.Code.Source code = Some payload →
       (∀ m, templates.Anything.Value payload ≠ VMap m) →
       schema.GetSource code = Ret (None, Some (Var ErrBadType)))
  ∧ (∀ code source err,
       schema.GetSource code = Ret (source, Some err) → source = None)
  ∧ (∀ source err,
       schema.GetSourceFromTemplate ct = Ret (source, Some err) → source = None).
Proof.
  repeat split.
  - intros Hlen. unfold schema.GetSourceFromTemplate.
    by rewrite bool_decide_eq_true_2.
  - intros name kind skipped codes Hskip.
    unfold schema.GetSourceFromTemplate, singleTarget. simpl.
    by rewrite GetSourceFromTemplate_range_skip.
  - intros name kind code rest Hengine.
    unfold schema.GetSourceFromTemplate, singleTarget. simpl.
    by rewrite Hengine.
  - intros target Htargets Hall.
    unfold schema.GetSourceFromTemplate. rewrite Htargets, single_target_checked. simpl.
    rewrite <- (app_nil_r (templates.Target.Code target)).
    by rewrite GetSourceFromTemplate_range_skip.
  - intros code payload Hsource Hvalue.
    unfold schema.GetSource. rewrite Hsource.
    destruct (templates.Anything.Value payload) eqn:Hv; try done.
    by destruct (Hvalue m).
  - apply GetSource_error_nil.
  - unfold schema.GetSourceFromTemplate. intros source err Hret.
    case_bool_decide; [by simplify_eq|].
    destruct (templates.ConstraintTemplate.Targets ct !! 0); [|done].
    destruct (schema.GetSourceFromTemplate_range _) as [[early|[src|]]|] eqn:Hrange;
      simplify_eq; [|done].
    by apply GetSourceFromTemplate_range_early in Hrange.
Qed.

End SourceOfTemplate.

Lemma GetSourceFromTemplate_errors_witness :
  @schema.GetSourceFromTemplate fixtures.converter
    (templates.ConstraintTemplate.mk "somepolicy" "SomePolicy" [])
  = Ret (None, Some (New "wrong number of targets defined, only 1 target allowed"))
  ∧ @schema.GetSourceFromTemplate fixtures.converter
      (singleTarget "somepolicy" "SomePolicy" [templates.Code.mk "Rego" None])
    = Ret (None, Some (New "K8sNativeValidation code not defined"))
  ∧ @schema.GetSource fixtures.converter
      (templates.Code.mk schema.Name (Some (templates.Anything.mk (VString "1 == 1"))))
    = Ret (None, Some (Var ErrBadType)).
Proof.
  split; [|split].
  - apply (@GetSourceFromTemplate_errors fixtures.converter). simpl. lia.
  - eapply (@GetSourceFromTemplate_errors fixtures.converter); [reflexivity|].
    repeat constructor. discriminate.
  - eapply (@GetSourceFromTemplate_errors fixtures.converter
              (templates.ConstraintTemplate.mk "somepolicy" "SomePolicy" []));
      [reflexivity|discriminate].
Defined.

(** ** The policy-definition compiler *)

Section Definitions.

Context `{!runtime.UnstructuredConverter schema.Source.t} `{!transform.Snippets}.

Lemma embedsSource_GetSourceFromTemplate template source :
  embedsSource template source →
  schema.GetSourceFromTemplate template
  = match schema.Validate source with
    | Some err => Ret (None, Some err)
    | None => Ret (Some source, None)
    end.
Proof.
  intros (skipped & raw & rest & Htargets & Hskip & Hdecode).
  unfold schema.GetSourceFromTemplate.
  rewrite Htargets, single_target_checked. simpl.
  rewrite GetSourceFromTemplate_range_skip by done. simpl.
  unfold schema.GetSource. simpl.
  rewrite Hdecode. by destruct (schema.Validate source).
Qed.

(** The compiled definition is named after the lowercased kind. *)
Lemma TemplateToPolicyDefinition_name template policy :
  transform.TemplateToPolicyDefinition template = Ret (Some policy, None) →
  admissionv1alpha1.ValidatingAdmissionPolicy.Name policy
  = "gatekeeper-" +:+ ToLower (templates.ConstraintTemplate.Kind template).
Proof.
  unfold transform.TemplateToPolicyDefinition. intros Hret.
  repeat case_match; by simplify_eq.
Qed.

(** C1 (amended).  For a template of kind [SomePolicy] embedding a source with
    one match condition, one variable, one validation and failure policy
    [Fail], whose match-condition name does not carry the reserved prefix and
    whose variable name neither carries it nor is [params], the compiler
    returns the definition named [gatekeeper-somepolicy] whose match
    conditions are the user's followed by the four synthesized ones in the
    fixed order and whose variables are the user's followed by [params] with
    the conditional expression. *)
Theorem TemplateToPolicyDefinition_single template source mc var val :
  templates.ConstraintTemplate.Kind template = "SomePolicy" →
  embedsSource template source →
  schema.Source.MatchConditions source = [mc] →
  schema.Source.Variables source = [var] →
  schema.Source.Validations source = [val] →
  schema.Source.FailurePolicy source = Some "Fail" →
  ¬ reservedMatchCondition mc →
  ¬ invalidVariable var →
  transform.TemplateToPolicyDefinition template
  = Ret (Some (admissionv1alpha1.ValidatingAdmissionPolicy.mk
                 "gatekeeper-somepolicy"
                 (Some (admissionv1alpha1.ParamKind.mk
                          "constraints.gatekeeper.sh/v1beta1" "SomePolicy"))
                 (Some transform.matchEverything)
                 (Some [ admissionv1alpha1.MatchCondition.mk
                           (schema.MatchCondition.Name mc)
                           (schema.MatchCondition.Expression mc);
                         admissionv1alpha1.MatchCondition.mk
                           "gatekeeper_internal_match_excluded_namespaces"
                           transform.matchExcludedNamespacesGlob;
                         admissionv1alpha1.MatchCondition.mk
                           "gatekeeper_internal_match_namespaces"
                           transform.matchNamespacesGlob;
                         admissionv1alpha1.MatchCondition.mk
                           "gatekeeper_internal_match_name"
                           transform.matchNameGlob;
                         admissionv1alpha1.MatchCondition.mk
                           "gatekeeper_internal_match_kinds"
                           transform.matchKinds ])
                 (Some [ admissionv1alpha1.Validation.mk
                           (schema.Validation.Expression val)
                           (schema.Validation.Message val)
                           (schema.Validation.MessageExpression val) ])
                 (Some admissionv1alpha1.Fail)
                 (Some [ admissionv1alpha1.Variable_.mk
                           (schema.Variable_.Name var)
                           (schema.Variable_.Expression var);
                         admissionv1alpha1.Variable_.mk
                           "params"
                           "!has(params.spec) ? null : !has(params.spec.parameters) ? null: params.spec.parameters" ])),
         None).
Proof.
  intros Hkind Hembeds Hmcs Hvars Hvals Hfp Hmc Hvar.
  assert (Hm : schema.validateMatchConditions source = None).
  { unfold schema.validateMatchConditions. rewrite Hmcs.
    apply validateMatchConditions_range_None. by repeat constructor. }
  assert (Hv : schema.validateVariables source = None).
  { unfold schema.validateVariables. rewrite Hvars.
    apply validateVariables_range_None. by repeat constructor. }
  assert (Hvalid : schema.Validate source = None).
  { unfold schema.Validate, schema.GetFailurePolicy. by rewrite Hm, Hv, Hfp. }
  unfold transform.TemplateToPolicyDefinition.
  rewrite (embedsSource_GetSourceFromTemplate _ _ Hembeds), Hvalid.
  unfold schema.GetV1Alpha1MatchConditions, schema.GetV1Alpha1Variables,
    schema.GetV1Alpha1Validatons, schema.GetV1alpha1FailurePolicy.
  by rewrite Hm, Hv, Hfp, Hmcs, Hvars, Hvals, Hkind.
Qed.

End Definitions.

(** ** The binding compiler *)

Lemma append_empty_r (s : string) : s +:+ EmptyString = s.
Proof.
  induction s as [|c s IH]; [done|].
  change (String c (s +:+ EmptyString) = String c s). by f_equal.
Qed.

Lemma badEnforcementAction_mentions action :
  ∃ text, transform.badEnforcementAction action = Wrap ErrBadEnforcementAction text
          ∧ mentions text action.
Proof.
  eexists. split; [reflexivity|].
  exists ": unrecognized enforcement action ", EmptyString.
  by rewrite append_empty_r.
Qed.

Lemma ConstraintToBinding_PolicyName constraint binding :
  transform.ConstraintToBinding constraint = (Some binding, None) →
  admissionv1alpha1.ValidatingAdmissionPolicyBinding.PolicyName binding
  = "gatekeeper-" +:+ ToLower (transform.Constraint.Kind constraint)
  ∧ admissionv1alpha1.ValidatingAdmissionPolicyBinding.Name binding
    = "gatekeeper-" +:+ transform.Constraint.Name constraint.
Proof.
  unfold transform.ConstraintToBinding. intros Hret.
  repeat case_match; by simplify_eq.
Qed.

(** C2.  The enforcement action is mapped from a closed set: absent and
    [deny] give the action list [[Deny]], [warn] gives [[Warn]], and any other
    string gives a nil binding with an error that wraps
    [ErrBadEnforcementAction] and names the offending value. *)
Theorem ConstraintToBinding_enforcement (constraint : transform.Constraint.t) :
  (transform.Constraint.EnforcementAction constraint = None
   ∨ transform.Constraint.EnforcementAction constraint = Some "deny" →
   ∃ binding,
     transform.ConstraintToBinding constraint = (Some binding, None)
     ∧ admissionv1alpha1.ValidatingAdmissionPolicyBinding.ValidationActions binding
       = Some [admissionv1alpha1.Deny])
  ∧ (transform.Constraint.EnforcementAction constraint = Some "warn" →
     ∃ binding,
       transform.ConstraintToBinding constraint = (Some binding, None)
       ∧ admissionv1alpha1.ValidatingAdmissionPolicyBinding.ValidationActions binding
         = Some [admissionv1alpha1.Warn])
  ∧ (∀ action,
       transform.Constraint.EnforcementAction constraint = Some action →
       action ≠ "deny" → action ≠ "warn" →
       ∃ text,
         transform.ConstraintToBinding constraint
         = (None, Some (Wrap ErrBadEnforcementAction text))
         ∧ errors_Is (Wrap ErrBadEnforcementAction text) ErrBadEnforcementAction = true
         ∧ mentions text action).
Proof.
  unfold transform.ConstraintToBinding, transform.validationActions.
  split; [|split].
  - intros [-> | ->]; by eexists.
  - intros ->. by eexists.
  - intros action -> Hdeny Hwarn.
    apply String.eqb_neq in Hdeny, Hwarn. rewrite Hdeny, Hwarn.
    destruct (badEnforcementAction_mentions action) as (text & -> & Hmentions).
    by exists text.
Qed.

(** C4.  Without selectors and without enforcement action the binding is named
    [gatekeeper-] followed by the instance name, refers to the parameter by
    the instance name with not-found action [Allow], carries the zero
    [MatchResources] (a value, not nil) and the action list [[Deny]]; and in
    every binding produced the namespace selector and the object selector of
    [MatchResources] are those of the instance. *)
Theorem ConstraintToBinding_selectors (constraint : transform.Constraint.t) :
  (transform.Constraint.NamespaceSelector constraint = None →
   transform.Constraint.LabelSelector constraint = None →
   transform.Constraint.EnforcementAction constraint = None →
   transform.ConstraintToBinding constraint
   = (Some (admissionv1alpha1.ValidatingAdmissionPolicyBinding.mk
              ("gatekeeper-" +:+ transform.Constraint.Name constraint)
              ("gatekeeper-" +:+ ToLower (transform.Constraint.Kind constraint))
              (Some (admissionv1alpha1.ParamRef.mk
                       (transform.Constraint.Name constraint)
                       (Some admissionv1alpha1.AllowAction)))
              (Some admissionv1alpha1.MatchResources.zero)
              (Some [admissionv1alpha1.Deny])),
      None))
  ∧ (∀ binding,
       transform.ConstraintToBinding constraint = (Some binding, None) →
       ∃ matchResources,
         admissionv1alpha1.ValidatingAdmissionPolicyBinding.MatchResources binding
         = Some matchResources
         ∧ admissionv1alpha1.MatchResources.NamespaceSelector matchResources
           = transform.Constraint.NamespaceSelector constraint
         ∧ admissionv1alpha1.MatchResources.ObjectSelector matchResources
           = transform.Constraint.LabelSelector constraint).
Proof.
  unfold transform.ConstraintToBinding. split.
  - by intros -> -> ->.
  - intros binding Hret.
    destruct (transform.validationActions _) as [actions [err|]]; simplify_eq.
    by eexists.
Qed.

(** C5.  For an instance and a template of the same kind [K], the policy name
    the binding refers to is [gatekeeper-] followed by the lowercased [K] and
    equals the name of the compiled definition; kind [FooTemplate] gives
    [gatekeeper-footemplate]; two kinds that agree once lowercased give the
    same policy name; and the binding's own name keeps the instance name as it
    is. *)
Theorem policy_name_agreement
    `{!runtime.UnstructuredConverter schema.Source.t} `{!transform.Snippets}
    (K : string) template constraint policy binding :
  templates.ConstraintTemplate.Kind template = K →
  transform.Constraint.Kind constraint = K →
  transform.TemplateToPolicyDefinition template = Ret (Some policy, None) →
  transform.ConstraintToBinding constraint = (Some binding, None) →
  admissionv1alpha1.ValidatingAdmissionPolicyBinding.PolicyName binding
  = "gatekeeper-" +:+ ToLower K
  ∧ admissionv1alpha1.ValidatingAdmissionPolicyBinding.PolicyName binding
    = admissionv1alpha1.ValidatingAdmissionPolicy.Name policy
  ∧ (K = "FooTemplate" →
     admissionv1alpha1.ValidatingAdmissionPolicyBinding.PolicyName binding
     = "gatekeeper-footemplate")
  ∧ (∀ constraint' binding',
       ToLower (transform.Constraint.Kind constraint') = ToLower K →
       transform.ConstraintToBinding constraint' = (Some binding', None) →
       admissionv1alpha1.ValidatingAdmissionPolicyBinding.PolicyName binding'
       = admissionv1alpha1.ValidatingAdmissionPolicyBinding.PolicyName binding)
  ∧ admissionv1alpha1.ValidatingAdmissionPolicyBinding.Name binding
    = "gatekeeper-" +:+ transform.Constraint.Name constraint.
Proof.
  intros Htemplate Hconstraint Hpolicy Hbinding.
  apply TemplateToPolicyDefinition_name in Hpolicy.
  apply ConstraintToBinding_PolicyName in Hbinding as [Hname Hown].
  rewrite Hname, Hpolicy, Htemplate, Hconstraint.
  repeat split; try done.
  - by intros ->.
  - intros constraint' binding' Hlower Hbinding'.
    apply ConstraintToBinding_PolicyName in Hbinding' as [-> _].
    by rewrite Hlower.
Qed.

(** The four synthesized match conditions carry the reserved prefix, and the
    synthesized variable the reserved name. *)
Lemma synthesized_names_reserved `{!transform.Snippets} :
  Forall (λ c, HasPrefix (admissionv1alpha1.MatchCondition.Name c) schema.ReservedPrefix = true)
         transform.AllMatchersV1Alpha1
  ∧ Forall (λ v, admissionv1alpha1.Variable_.Name v = schema.ParamsName)
           transform.AllVariablesV1Alpha1.
Proof. split; by repeat constructor. Qed.

(** ** The fixtures behave as the test file expects *)

Section Fixtures.

#[local] Existing Instance fixtures.converter.
#[local] Existing Instance fixtures.snippets.

Example converter_round_trip_valid :
  runtime.FromUnstructured (fixtures.encodeSource fixtures.validSource) schema.Source.zero
  = (fixtures.validSource, None).
Proof. vm_compute. reflexivity. Qed.

Lemma valid_template_embeds :
  embedsSource (fixtures.templateOf "SomePolicy" fixtures.validSource) fixtures.validSource.
Proof.
  exists [], (fixtures.encodeSource fixtures.validSource), [].
  split; [reflexivity|]. split; [constructor|]. vm_compute. reflexivity.
Qed.

Lemma invalid_template_embeds :
  embedsSource (fixtures.templateOf "SomePolicy" fixtures.invalidMatchConditionSource)
               fixtures.invalidMatchConditionSource.
Proof.
  exists [], (fixtures.encodeSource fixtures.invalidMatchConditionSource), [].
  split; [reflexivity|]. split; [constructor|]. vm_compute. reflexivity.
Qed.

(** C1, as stated, fails on the test case [Invalid Match Condition]: a
    template of kind [SomePolicy] whose source has one match condition, one
    variable, one validation and failure policy [Fail], for which the
    compiler returns [ErrBadMatchCondition] and no definition. *)
Lemma TemplateToPolicyDefinition_single_rejected :
  templates.ConstraintTemplate.Kind
    (fixtures.templateOf "SomePolicy" fixtures.invalidMatchConditionSource) = "SomePolicy"
  ∧ embedsSource (fixtures.templateOf "SomePolicy" fixtures.invalidMatchConditionSource)
                 fixtures.invalidMatchConditionSource
  ∧ length (schema.Source.MatchConditions fixtures.invalidMatchConditionSource) = 1
  ∧ length (schema.Source.Variables fixtures.invalidMatchConditionSource) = 1
  ∧ length (schema.Source.Validations fixtures.invalidMatchConditionSource) = 1
  ∧ schema.Source.FailurePolicy fixtures.invalidMatchConditionSource = Some "Fail"
  ∧ transform.TemplateToPolicyDefinition
      (fixtures.templateOf "SomePolicy" fixtures.invalidMatchConditionSource)
    = Ret (None, Some (schema.badMatchCondition "gatekeeper_internal_match_something")).
Proof.
  split; [reflexivity|]. split; [apply invalid_template_embeds|].
  do 4 (split; [reflexivity|]).
  unfold transform.TemplateToPolicyDefinition.
  rewrite (embedsSource_GetSourceFromTemplate _ _ invalid_template_embeds).
  reflexivity.
Qed.

Lemma TemplateToPolicyDefinition_single_witness :
  ∃ policy,
    transform.TemplateToPolicyDefinition (fixtures.templateOf "SomePolicy" fixtures.validSource)
    = Ret (Some policy, None)
    ∧ admissionv1alpha1.ValidatingAdmissionPolicy.Name policy = "gatekeeper-somepolicy"
    ∧ length (elems (admissionv1alpha1.ValidatingAdmissionPolicy.MatchConditions policy)) = 5
    ∧ length (elems (admissionv1alpha1.ValidatingAdmissionPolicy.Variables policy)) = 2.
Proof.
  eexists. split.
  - eapply (TemplateToPolicyDefinition_single
              (fixtures.templateOf "SomePolicy" fixtures.validSource) fixtures.validSource).
    + reflexivity.
    + apply valid_template_embeds.
    + reflexivity.
    + reflexivity.
    + reflexivity.
    + reflexivity.
    + discriminate.
    + intros [Hp|Hn]; discriminate.
  - repeat split.
Defined.

Lemma ConstraintToBinding_enforcement_witness :
  (∃ binding,
     transform.ConstraintToBinding (fixtures.newTestConstraint "warn" None None)
     = (Some binding, None)
     ∧ admissionv1alpha1.ValidatingAdmissionPolicyBinding.ValidationActions binding
       = Some [admissionv1alpha1.Warn])
  ∧ (∃ text,
       transform.ConstraintToBinding (fixtures.newTestConstraint "magicunicorns" None None)
       = (None, Some (Wrap ErrBadEnforcementAction text))
       ∧ errors_Is (Wrap ErrBadEnforcementAction text) ErrBadEnforcementAction = true
       ∧ mentions text "magicunicorns").
Proof.
  split.
  - apply (ConstraintToBinding_enforcement (fixtures.newTestConstraint "warn" None None)).
    reflexivity.
  - eapply (ConstraintToBinding_enforcement
              (fixtures.newTestConstraint "magicunicorns" None None));
      [reflexivity|discriminate|discriminate].
Defined.

Lemma ConstraintToBinding_selectors_witness :
  transform.ConstraintToBinding (fixtures.newTestConstraint EmptyString None None)
  = (Some (admissionv1alpha1.ValidatingAdmissionPolicyBinding.mk
             "gatekeeper-foo-name"
             "gatekeeper-footemplate"
             (Some (admissionv1alpha1.ParamRef.mk "foo-name"
                      (Some admissionv1alpha1.AllowAction)))
             (Some admissionv1alpha1.MatchResources.zero)
             (Some [admissionv1alpha1.Deny])),
     None).
Proof.
  apply (ConstraintToBinding_selectors (fixtures.newTestConstraint EmptyString None None));
    reflexivity.
Defined.

Lemma policy_name_agreement_witness :
  ∃ policy binding,
    transform.TemplateToPolicyDefinition (fixtures.templateOf "FooTemplate" fixtures.validSource)
    = Ret (Some policy, None)
    ∧ transform.ConstraintToBinding (fixtures.newTestConstraint EmptyString None None)
      = (Some binding, None)
    ∧ admissionv1alpha1.ValidatingAdmissionPolicyBinding.PolicyName binding
      = "gatekeeper-footemplate"
    ∧ admissionv1alpha1.ValidatingAdmissionPolicyBinding.PolicyName binding
      = admissionv1alpha1.ValidatingAdmissionPolicy.Name policy
    ∧ admissionv1alpha1.ValidatingAdmissionPolicyBinding.Name binding
      = "gatekeeper-foo-name".
Proof.
  do 2 eexists.
  split; [vm_compute; reflexivity|]. split; [vm_compute; reflexivity|].
  edestruct (policy_name_agreement "FooTemplate"
               (fixtures.templateOf "FooTemplate" fixtures.validSource)
               (fixtures.newTestConstraint EmptyString None None))
    as (_ & Hsame & Hfoo & _ & Hown);
    [reflexivity|reflexivity|vm_compute; reflexivity|vm_compute; reflexivity|].
  split; [exact (Hfoo eq_refl)|]. split; [exact Hsame|exact Hown].
Defined.

(** The remaining cases of [TestConstraintToBinding]. *)
Example binding_with_both_selectors :
  transform.ConstraintToBinding
    (fixtures.newTestConstraint EmptyString (Some fixtures.matchNSYes) (Some fixtures.matchYes))
  = (Some (admissionv1alpha1.ValidatingAdmissionPolicyBinding.mk
             "gatekeeper-foo-name"
             "gatekeeper-footemplate"
             (Some (admissionv1alpha1.ParamRef.mk "foo-name"
                      (Some admissionv1alpha1.AllowAction)))
             (Some (admissionv1alpha1.MatchResources.mk
                      (Some fixtures.matchNSYes) (Some fixtures.matchYes) None))
             (Some [admissionv1alpha1.Deny])),
     None).
Proof. reflexivity. Qed.

Example binding_with_explicit_deny :
  transform.ConstraintToBinding (fixtures.newTestConstraint "deny" None None)
  = transform.ConstraintToBinding (fixtures.newTestConstraint EmptyString None None).
Proof. reflexivity. Qed.

End Fixtures.

(** * Further properties of package schema *)

(** ** The prefix test and the converse of the naming checks *)

Lemma HasPrefix_spec (s pre : string) :
  HasPrefix s pre = true ↔ ∃ rest, s = pre +:+ rest.
Proof.
  unfold HasPrefix. revert s.
  induction pre as [|a pre IH]; intros s.
  - split; [intros _; by exists s|intros _; by destruct s].
  - destruct s as [|b s].
    + split; [done|]. intros [rest Hrest]. discriminate Hrest.
    + change (String.prefix (String a pre) (String b s))
        with (if ascii_dec a b then String.prefix pre s else false).
      destruct (ascii_dec a b) as [->|Hne].
      * rewrite IH. split; intros [rest Hrest]; exists rest.
        -- change (String b s = String b (pre +:+ rest)). by f_equal.
        -- change (String b s = String b (pre +:+ rest)) in Hrest. by simplify_eq.
      * split; [done|]. intros [rest Hrest].
        change (String b s = String a (pre +:+ rest)) in Hrest. by simplify_eq.
Qed.

Lemma validateMatchConditions_range_Some l err :
  schema.validateMatchConditions_range l = Some err →
  ∃ c, c ∈ l ∧ reservedMatchCondition c
       ∧ err = schema.badMatchCondition (schema.MatchCondition.Name c).
Proof.
  induction l as [|c l IH]; simpl; [done|].
  destruct (HasPrefix _ _) eqn:Hc.
  - intros [= <-]. exists c. split; [left|done].
  - intros Herr. destruct (IH Herr) as (c' & Hin & Hrest).
    exists c'. split; [by right|done].
Qed.

Lemma validateMatchConditions_range_None_inv l :
  schema.validateMatchConditions_range l = None →
  Forall (λ c, ¬ reservedMatchCondition c) l.
Proof.
  unfold reservedMatchCondition.
  induction l as [|c l IH]; simpl; [by constructor|].
  destruct (HasPrefix _ _) eqn:Hc; [done|].
  intros Hnone. constructor; [congruence|by apply IH].
Qed.

Lemma validateVariables_range_Some l err :
  schema.validateVariables_range l = Some err →
  ∃ v, v ∈ l ∧ invalidVariable v ∧ err = variableError v.
Proof.
  induction l as [|v l IH]; simpl; [done|].
  destruct (HasPrefix _ _) eqn:Hp.
  { intros [= <-]. exists v. unfold variableError. rewrite Hp.
    split; [left|]. split; [by left|done]. }
  destruct (String.eqb _ _) eqn:Hn.
  { intros [= <-]. exists v. unfold variableError. rewrite Hp.
    split; [left|]. split; [|done]. right. by apply String.eqb_eq. }
  intros Herr. destruct (IH Herr) as (v' & Hin & Hrest).
  exists v'. split; [by right|done].
Qed.

Lemma validateVariables_range_None_inv l :
  schema.validateVariables_range l = None →
  Forall (λ v, ¬ invalidVariable v) l.
Proof.
  induction l as [|v l IH]; simpl; [by constructor|].
  destruct (HasPrefix _ _) eqn:Hp; [done|].
  destruct (String.eqb _ _) eqn:Hn; [done|].
  intros Hnone. constructor; [by apply invalidVariable_false|by apply IH].
Qed.

Lemma GetFailurePolicy_error_cases in_ :
  match (schema.GetFailurePolicy in_).2 with
  | None =>
      schema.Source.FailurePolicy in_ = None
      ∨ schema.Source.FailurePolicy in_ = Some "Fail"
      ∨ schema.Source.FailurePolicy in_ = Some "Ignore"
  | Some err =>
      ∃ fp, schema.Source.FailurePolicy in_ = Some fp
            ∧ fp ≠ "Fail" ∧ fp ≠ "Ignore"
            ∧ err = schema.badFailurePolicy fp
  end.
Proof.
  unfold schema.GetFailurePolicy.
  destruct (schema.Source.FailurePolicy in_) as [fp|]; simpl; [|by left].
  unfold admissionv1.Fail, admissionv1.Ignore.
  destruct (String.eqb fp "Fail") eqn:Hfail; simpl.
  { apply String.eqb_eq in Hfail as ->. right. by left. }
  destruct (String.eqb fp "Ignore") eqn:Hignore; simpl.
  { apply String.eqb_eq in Hignore as ->. right. by right. }
  apply String.eqb_neq in Hfail, Hignore. by exists fp.
Qed.

Lemma validateMatchConditions_range_app l1 l2 :
  schema.validateMatchConditions_range (l1 ++ l2)
  = match schema.validateMatchConditions_range l1 with
    | Some err => Some err
    | None => schema.validateMatchConditions_range l2
    end.
Proof.
  induction l1 as [|c l1 IH]; simpl; [done|].
  by destruct (HasPrefix _ _).
Qed.

Lemma validateVariables_range_app l1 l2 :
  schema.validateVariables_range (l1 ++ l2)
  = match schema.validateVariables_range l1 with
    | Some err => Some err
    | None => schema.validateVariables_range l2
    end.
Proof.
  induction l1 as [|v l1 IH]; simpl; [done|].
  destruct (HasPrefix _ _); [done|]. by destruct (String.eqb _ _).
Qed.

Lemma validateMatchConditions_range_names l l' :
  schema.MatchCondition.Name <$> l = schema.MatchCondition.Name <$> l' →
  schema.validateMatchConditions_range l = schema.validateMatchConditions_range l'.
Proof.
  revert l'. induction l as [|c l IH]; intros [|c' l'] Hnames; simplify_eq/=; [done|].
  rewrite (IH l') by done. by replace (schema.MatchCondition.Name c')
    with (schema.MatchCondition.Name c).
Qed.

Lemma validateVariables_range_names l l' :
  schema.Variable_.Name <$> l = schema.Variable_.Name <$> l' →
  schema.validateVariables_range l = schema.validateVariables_range l'.
Proof.
  revert l'. induction l as [|v l IH]; intros [|v' l'] Hnames; simplify_eq/=; [done|].
  rewrite (IH l') by done. by replace (schema.Variable_.Name v')
    with (schema.Variable_.Name v).
Qed.

(** ** Match conditions and variables through the accessors *)

(** X1.  When no match-condition name carries the reserved prefix, both
    match-condition accessors succeed and copy name and expression of every
    entry, in order: [GetMatchConditions] into a non-nil slice with no nil
    slot, [GetV1Alpha1MatchConditions] into a slice with the same entries. *)
Theorem match_conditions_copied (in_ : schema.Source.t) :
  Forall (λ c, ¬ reservedMatchCondition c) (schema.Source.MatchConditions in_) →
  schema.GetMatchConditions in_
  = (Some ((λ mc, Some (cel.MatchCondition (schema.MatchCondition.Name mc)
                                           (schema.MatchCondition.Expression mc)))
             <$> schema.Source.MatchConditions in_),
     None)
  ∧ (schema.GetV1Alpha1MatchConditions in_).2 = None
  ∧ elems (schema.GetV1Alpha1MatchConditions in_).1
    = (λ mc, admissionv1alpha1.MatchCondition.mk (schema.MatchCondition.Name mc)
                                                 (schema.MatchCondition.Expression mc))
        <$> schema.Source.MatchConditions in_.
Proof.
  intros Hok. apply validateMatchConditions_range_None in Hok.
  unfold schema.GetMatchConditions, schema.GetV1Alpha1MatchConditions,
    schema.validateMatchConditions.
  rewrite Hok, range_store_make. simpl. by rewrite range_append_elems.
Qed.

Lemma match_conditions_copied_witness :
  schema.GetMatchConditions fixtures.validSource
  = (Some [Some (cel.MatchCondition "must_match_something" "true == true")], None)
  ∧ elems (schema.GetV1Alpha1MatchConditions fixtures.validSource).1
    = [admissionv1alpha1.MatchCondition.mk "must_match_something" "true == true"].
Proof.
  destruct (match_conditions_copied fixtures.validSource) as (Hcel & _ & Halpha).
  - repeat constructor. discriminate.
  - split; [exact Hcel|exact Halpha].
Defined.

(** X2.  When no variable name carries the reserved prefix or is [params],
    both variable accessors succeed and copy name and expression of every
    entry, in order. *)
Theorem variables_copied (in_ : schema.Source.t) :
  Forall (λ v, ¬ invalidVariable v) (schema.Source.Variables in_) →
  schema.GetVariables in_
  = (Some ((λ v, Some (cel.Variable_ (schema.Variable_.Name v)
                                     (schema.Variable_.Expression v)))
             <$> schema.Source.Variables in_),
     None)
  ∧ (schema.GetV1Alpha1Variables in_).2 = None
  ∧ elems (schema.GetV1Alpha1Variables in_).1
    = (λ v, admissionv1alpha1.Variable_.mk (schema.Variable_.Name v)
                                           (schema.Variable_.Expression v))
        <$> schema.Source.Variables in_.
Proof.
  intros Hok. apply validateVariables_range_None in Hok.
  unfold schema.GetVariables, schema.GetV1Alpha1Variables, schema.validateVariables.
  rewrite Hok, range_store_make. simpl. by rewrite range_append_elems.
Qed.

Lemma variables_copied_witness :
  schema.GetVariables fixtures.validSource
  = (Some [Some (cel.Variable_ "my_variable" "true")], None)
  ∧ elems (schema.GetV1Alpha1Variables fixtures.validSource).1
    = [admissionv1alpha1.Variable_.mk "my_variable" "true"].
Proof.
  destruct (variables_copied fixtures.validSource) as (Hcel & _ & Halpha).
  - repeat constructor. intros [Hp|Hn]; discriminate.
  - split; [exact Hcel|exact Halpha].
Defined.

(** X3.  Which accessors return a nil slice.  The accessors of the CEL flavour
    return nil only together with an error, and [GetValidations] and
    [GetMessageExpressions] never do; those of the alpha flavour also return
    nil, without error, when the source list is empty. *)
Theorem accessor_slices_nil (in_ : schema.Source.t) :
  ((schema.GetMatchConditions in_).1 = None
   ↔ Exists reservedMatchCondition (schema.Source.MatchConditions in_))
  ∧ ((schema.GetV1Alpha1MatchConditions in_).1 = None
     ↔ schema.Source.MatchConditions in_ = []
       ∨ Exists reservedMatchCondition (schema.Source.MatchConditions in_))
  ∧ ((schema.GetVariables in_).1 = None
     ↔ Exists invalidVariable (schema.Source.Variables in_))
  ∧ ((schema.GetV1Alpha1Variables in_).1 = None
     ↔ schema.Source.Variables in_ = []
       ∨ Exists invalidVariable (schema.Source.Variables in_))
  ∧ (schema.GetValidations in_).1 ≠ None
  ∧ (schema.GetMessageExpressions in_).1 ≠ None
  ∧ ((schema.GetV1Alpha1Validatons in_).1 = None
     ↔ schema.Source.Validations in_ = []).
Proof.
  unfold schema.GetMatchConditions, schema.GetV1Alpha1MatchConditions,
    schema.GetVariables, schema.GetV1Alpha1Variables, schema.GetValidations,
    schema.GetMessageExpressions, schema.GetV1Alpha1Validatons,
    schema.validateMatchConditions, schema.validateVariables.
  rewrite !range_append_spec.
  assert (Hmc : ∀ l, Exists reservedMatchCondition l
                     ↔ is_Some (schema.validateMatchConditions_range l)).
  { intros l. split.
    - intros Hex. destruct (validateMatchConditions_range_first _ Hex)
        as (? & ? & ? & _ & _ & _ & ->). by eexists.
    - intros [err Herr]. apply validateMatchConditions_range_Some in Herr
        as (c & Hin & Hc & _). apply Exists_exists. by exists c. }
  assert (Hvar : ∀ l, Exists invalidVariable l
                      ↔ is_Some (schema.validateVariables_range l)).
  { intros l. split.
    - intros Hex. destruct (validateVariables_range_first _ Hex)
        as (? & ? & ? & _ & _ & _ & ->). by eexists.
    - intros [err Herr]. apply validateVariables_range_Some in Herr
        as (v & Hin & Hv & _). apply Exists_exists. by exists v. }
  rewrite !Hmc, !Hvar.
  destruct (schema.validateMatchConditions_range _) as [e1|];
    destruct (schema.validateVariables_range _) as [e2|];
    destruct (schema.Source.MatchConditions in_);
    destruct (schema.Source.Variables in_);
    destruct (schema.Source.Validations in_); simpl;
    repeat split; try done; try (by intros [?|[? ?]]); try (by intros [? ?]);
    try (by intros _; eexists); try (by intros _; left); try (by intros _; right; eexists).
Qed.

(** ** What [Validate] accepts, and what its error tells *)

(** X4.  [Validate] returns nil exactly for the sources in which no
    match-condition name and no variable name consists of the reserved prefix
    followed by anything, no variable is named [params], and the failure
    policy is absent, [Fail] or [Ignore]. *)
Theorem Validate_passes_iff (in_ : schema.Source.t) :
  schema.Validate in_ = None
  ↔ Forall (λ c, ¬ ∃ rest, schema.MatchCondition.Name c = schema.ReservedPrefix +:+ rest)
           (schema.Source.MatchConditions in_)
    ∧ Forall (λ v, (¬ ∃ rest, schema.Variable_.Name v = schema.ReservedPrefix +:+ rest)
                   ∧ schema.Variable_.Name v ≠ schema.ParamsName)
             (schema.Source.Variables in_)
    ∧ (schema.Source.FailurePolicy in_ = None
       ∨ schema.Source.FailurePolicy in_ = Some "Fail"
       ∨ schema.Source.FailurePolicy in_ = Some "Ignore").
Proof.
  unfold schema.Validate, schema.validateMatchConditions, schema.validateVariables.
  split.
  - intros Hvalid.
    destruct (schema.validateMatchConditions_range _) eqn:Hmc; [done|].
    destruct (schema.validateVariables_range _) eqn:Hvar; [done|].
    pose proof (GetFailurePolicy_error_cases in_) as Hfp.
    destruct (schema.GetFailurePolicy in_).2; [done|].
    split; [|split; [|done]].
    + eapply Forall_impl; [by apply validateMatchConditions_range_None_inv|].
      intros c Hc Hrest. by apply Hc, HasPrefix_spec.
    + eapply Forall_impl; [by apply validateVariables_range_None_inv|].
      intros v Hv. split.
      * intros Hrest. apply Hv. left. by apply HasPrefix_spec.
      * intros Hname. apply Hv. by right.
  - intros (Hmc & Hvar & Hfp).
    rewrite validateMatchConditions_range_None.
    + rewrite validateVariables_range_None.
      * by rewrite (GetFailurePolicy_error_None _ Hfp).
      * eapply Forall_impl; [exact Hvar|].
        intros v [Hp Hn] [Hbad|Hbad]; [|done]. by apply Hp, HasPrefix_spec.
    + eapply Forall_impl; [exact Hmc|].
      intros c Hc Hbad. by apply Hc, HasPrefix_spec.
Qed.

(** X5.  The error of [Validate] tells which check failed and that the checks
    before it passed: [ErrBadMatchCondition] means some match-condition name
    is reserved; [ErrBadVariable] means none is and some variable name is
    invalid; [ErrBadFailurePolicy] means all names are fine and the failure
    policy is a string other than [Fail] and [Ignore].  [Validate] returns no
    other kind of error. *)
Theorem Validate_error_tells_the_check (in_ : schema.Source.t) (err : error) :
  schema.Validate in_ = Some err →
  (errors_Is err ErrBadMatchCondition = true
   ∧ Exists reservedMatchCondition (schema.Source.MatchConditions in_))
  ∨ (errors_Is err ErrBadVariable = true
     ∧ Forall (λ c, ¬ reservedMatchCondition c) (schema.Source.MatchConditions in_)
     ∧ Exists invalidVariable (schema.Source.Variables in_))
  ∨ (errors_Is err ErrBadFailurePolicy = true
     ∧ Forall (λ c, ¬ reservedMatchCondition c) (schema.Source.MatchConditions in_)
     ∧ Forall (λ v, ¬ invalidVariable v) (schema.Source.Variables in_)
     ∧ ∃ fp, schema.Source.FailurePolicy in_ = Some fp ∧ fp ≠ "Fail" ∧ fp ≠ "Ignore").
Proof.
  unfold schema.Validate, schema.validateMatchConditions, schema.validateVariables.
  destruct (schema.validateMatchConditions_range _) as [e|] eqn:Hmc.
  { intros [= <-]. left.
    apply validateMatchConditions_range_Some in Hmc as (c & Hin & Hc & ->).
    split; [done|]. apply Exists_exists. by exists c. }
  apply validateMatchConditions_range_None_inv in Hmc.
  destruct (schema.validateVariables_range _) as [e|] eqn:Hvar.
  { intros [= <-]. right. left.
    apply validateVariables_range_Some in Hvar as (v & Hin & Hv & ->).
    split; [apply errors_Is_variableError|]. split; [done|].
    apply Exists_exists. by exists v. }
  apply validateVariables_range_None_inv in Hvar.
  pose proof (GetFailurePolicy_error_cases in_) as Hfp.
  destruct (schema.GetFailurePolicy in_).2 as [e|]; [|done].
  intros [= <-]. right. right.
  destruct Hfp as (fp & Hfp & Hfail & Hignore & ->).
  split; [done|]. split; [done|]. split; [done|]. by exists fp.
Qed.

Lemma Validate_error_tells_the_check_witness :
  Forall (λ c, ¬ reservedMatchCondition c)
         (schema.Source.MatchConditions fixtures.clobberingParamsSource)
  ∧ Exists invalidVariable (schema.Source.Variables fixtures.clobberingParamsSource).
Proof.
  destruct (Validate_error_tells_the_check fixtures.clobberingParamsSource
              schema.badVariableParams eq_refl)
    as [[His _] | [(_ & Hmc & Hvar) | [His _]]].
  - discriminate His.
  - split; [exact Hmc|exact Hvar].
  - discriminate His.
Defined.

(** X6.  The two failure-policy accessors fail on the same sources with the
    same error, return nil together, and a value returned by
    [GetFailurePolicy] is the source's own string. *)
Theorem failure_policy_accessors_agree (in_ : schema.Source.t) :
  (schema.GetFailurePolicy in_).2 = (schema.GetV1alpha1FailurePolicy in_).2
  ∧ ((schema.GetFailurePolicy in_).1 = None
     ↔ (schema.GetV1alpha1FailurePolicy in_).1 = None)
  ∧ ((schema.GetFailurePolicy in_).2 = None →
     (schema.GetFailurePolicy in_).1 = schema.Source.FailurePolicy in_).
Proof.
  unfold schema.GetFailurePolicy, schema.GetV1alpha1FailurePolicy.
  destruct (schema.Source.FailurePolicy in_) as [fp|]; [|done].
  destruct (String.eqb fp admissionv1.Fail) eqn:Hfail.
  { apply String.eqb_eq in Hfail as ->. done. }
  destruct (String.eqb fp admissionv1.Ignore) eqn:Hignore.
  { apply String.eqb_eq in Hignore as ->. done. }
  done.
Qed.

(** X7.  Checking a concatenation: the checks report the error of the first
    part if it has one and otherwise that of the second, so entries placed
    after an offending one never change the report and valid entries placed
    anywhere never change the outcome. *)
Theorem validation_of_concatenation (in_ : schema.Source.t)
    (moreConditions : list schema.MatchCondition.t)
    (moreVariables : list schema.Variable_.t) :
  schema.validateMatchConditions
    (schema.Source.mk (schema.Source.Validations in_) (schema.Source.FailurePolicy in_)
       (schema.Source.MatchConditions in_ ++ moreConditions) (schema.Source.Variables in_))
  = match schema.validateMatchConditions in_ with
    | Some err => Some err
    | None => schema.validateMatchConditions_range moreConditions
    end
  ∧ schema.validateVariables
      (schema.Source.mk (schema.Source.Validations in_) (schema.Source.FailurePolicy in_)
         (schema.Source.MatchConditions in_) (schema.Source.Variables in_ ++ moreVariables))
    = match schema.validateVariables in_ with
      | Some err => Some err
      | None => schema.validateVariables_range moreVariables
      end
  ∧ (Forall (λ c, ¬ reservedMatchCondition c) moreConditions →
     Forall (λ v, ¬ invalidVariable v) moreVariables →
     schema.Validate
       (schema.Source.mk (schema.Source.Validations in_) (schema.Source.FailurePolicy in_)
          (schema.Source.MatchConditions in_ ++ moreConditions)
          (schema.Source.Variables in_ ++ moreVariables))
     = schema.Validate in_).
Proof.
  unfold schema.Validate, schema.validateMatchConditions, schema.validateVariables,
    schema.GetFailurePolicy. simpl.
  rewrite validateMatchConditions_range_app, validateVariables_range_app.
  split; [done|]. split; [done|].
  intros Hmc Hvar.
  rewrite (validateMatchConditions_range_None _ Hmc), (validateVariables_range_None _ Hvar).
  destruct (schema.validateMatchConditions_range _); [done|].
  by destruct (schema.validateVariables_range _).
Qed.

Lemma validation_of_concatenation_witness :
  schema.Validate
    (schema.Source.mk [fixtures.someValidation] (Some "Fail")
       [schema.MatchCondition.mk "gatekeeper_internal_match_something" "true == true";
        schema.MatchCondition.mk "later" "true"]
       [schema.Variable_.mk "my_variable" "true"])
  = schema.Validate fixtures.invalidMatchConditionSource.
Proof.
  apply (validation_of_concatenation fixtures.invalidMatchConditionSource
           [schema.MatchCondition.mk "later" "true"] []).
  - repeat constructor. discriminate.
  - constructor.
Defined.

(** X8.  [Validate] reads nothing but the names and the failure policy: two
    sources with the same match-condition names, the same variable names and
    the same failure policy get the same verdict, whatever their expressions
    and validations. *)
Theorem Validate_reads_names_only (a b : schema.Source.t) :
  schema.MatchCondition.Name <$> schema.Source.MatchConditions a
  = schema.MatchCondition.Name <$> schema.Source.MatchConditions b →
  schema.Variable_.Name <$> schema.Source.Variables a
  = schema.Variable_.Name <$> schema.Source.Variables b →
  schema.Source.FailurePolicy a = schema.Source.FailurePolicy b →
  schema.Validate a = schema.Validate b.
Proof.
  intros Hmc Hvar Hfp.
  unfold schema.Validate, schema.validateMatchConditions, schema.validateVariables,
    schema.GetFailurePolicy.
  by rewrite (validateMatchConditions_range_names _ _ Hmc),
    (validateVariables_range_names _ _ Hvar), Hfp.
Qed.

Lemma Validate_reads_names_only_witness :
  schema.Validate
    (schema.Source.mk [] (Some "Fail")
       [schema.MatchCondition.mk "must_match_something" "not even CEL"]
       [schema.Variable_.mk "my_variable" EmptyString])
  = schema.Validate fixtures.validSource.
Proof.
  apply Validate_reads_names_only; reflexivity.
Defined.

(** ** From a template to its source *)

Section SourceExtraction.

Context `{!runtime.UnstructuredConverter schema.Source.t}.

Lemma GetSource_cases code :
  match schema.GetSource code with
  | Panic _ => templates.Code.Source code = None
  | Ret (Some source, None) =>
      schema.Validate source = None
      ∧ ∃ payload raw,
          templates.Code.Source code = Some payload
          ∧ templates.Anything.Value payload = VMap raw
          ∧ runtime.FromUnstructured raw schema.Source.zero = (source, None)
  | Ret (None, Some _) => True
  | Ret (Some _, Some _) | Ret (None, None) => False
  end.
Proof.
  unfold schema.GetSource.
  destruct (templates.Code.Source code) as [payload|]; [|done].
  destruct (templates.Anything.Value payload) as [| | | | |raw] eqn:Hvalue; try done.
  destruct (runtime.FromUnstructured raw schema.Source.zero) as [out [err|]] eqn:Hdecode;
    [done|].
  destruct (schema.Validate out) eqn:Hvalid; [done|].
  split; [done|]. by exists payload, raw.
Qed.

Lemma codes_first_match (codes : list templates.Code.t) :
  Forall (λ code, templates.Code.Engine code ≠ schema.Name) codes
  ∨ ∃ skipped code rest,
      codes = skipped ++ code :: rest
      ∧ Forall (λ code, templates.Code.Engine code ≠ schema.Name) skipped
      ∧ templates.Code.Engine code = schema.Name.
Proof.
  induction codes as [|code codes IH]; [by left|].
  destruct (String.eqb (templates.Code.Engine code) schema.Name) eqn:Hengine.
  - right. exists [], code, codes. apply String.eqb_eq in Hengine. by repeat split.
  - apply String.eqb_neq in Hengine. destruct IH as [Hall|(skipped & c & rest & -> & Hskip & Hc)].
    + left. by constructor.
    + right. exists (code :: skipped), c, rest. repeat split; [|done]. by constructor.
Qed.

Lemma GetSourceFromTemplate_range_first skipped code rest :
  Forall (λ code, templates.Code.Engine code ≠ schema.Name) skipped →
  templates.Code.Engine code = schema.Name →
  schema.GetSourceFromTemplate_range (skipped ++ code :: rest)
  = match schema.GetSource code with
    | Panic reason => Panic reason
    | Ret (_, Some err) => Ret (inl (None, Some err))
    | Ret (source, None) => Ret (inr source)
    end.
Proof.
  intros Hskip Hengine. rewrite GetSourceFromTemplate_range_skip by done.
  simpl. by rewrite Hengine.
Qed.

Lemma GetSourceFromTemplate_range_none codes :
  Forall (λ code, templates.Code.Engine code ≠ schema.Name) codes →
  schema.GetSourceFromTemplate_range codes = Ret (inr None).
Proof.
  intros Hall. rewrite <- (app_nil_r codes).
  by rewrite GetSourceFromTemplate_range_skip.
Qed.

Lemma GetSourceFromTemplate_single name kind skipped code rest :
  Forall (λ code, templates.Code.Engine code ≠ schema.Name) skipped →
  templates.Code.Engine code = schema.Name →
  schema.GetSourceFromTemplate (singleTarget name kind (skipped ++ code :: rest))
  = schema.GetSource code.
Proof.
  intros Hskip Hengine.
  unfold schema.GetSourceFromTemplate, singleTarget. simpl.
  rewrite GetSourceFromTemplate_range_first by done.
  pose proof (GetSource_cases code) as Hcases.
  by destruct (schema.GetSource code) as [[[source|] [err|]]|].
Qed.

Lemma one_target (ct : templates.ConstraintTemplate.t) :
  length (templates.ConstraintTemplate.Targets ct) = 1 →
  ∃ target, templates.ConstraintTemplate.Targets ct = [target].
Proof.
  destruct (templates.ConstraintTemplate.Targets ct) as [|target [|? ?]]; try done.
  by exists target.
Qed.

Lemma GetSourceFromTemplate_unfold ct target :
  templates.ConstraintTemplate.Targets ct = [target] →
  schema.GetSourceFromTemplate ct
  = schema.GetSourceFromTemplate
      (singleTarget (templates.ConstraintTemplate.Name ct)
                    (templates.ConstraintTemplate.Kind ct)
                    (templates.Target.Code target)).
Proof.
  intros Htargets. unfold schema.GetSourceFromTemplate, singleTarget.
  rewrite Htargets. by destruct target.
Qed.

(** X9.  For a template with one target, [GetSourceFromTemplate] returns what
    [GetSource] returns on the first code entry of engine
    [K8sNativeValidation]: entries of other engines before it and all entries
    after it play no part, so a later valid entry does not rescue an invalid
    first one. *)
Theorem first_entry_decides name kind skipped code rest :
  Forall (λ code, templates.Code.Engine code ≠ schema.Name) skipped →
  templates.Code.Engine code = schema.Name →
  schema.GetSourceFromTemplate (singleTarget name kind (skipped ++ code :: rest))
  = schema.GetSource code.
Proof.
  intros Hskip Hengine.
  unfold schema.GetSourceFromTemplate, singleTarget. simpl.
  rewrite GetSourceFromTemplate_range_first by done.
  pose proof (GetSource_cases code) as Hcases.
  destruct (schema.GetSource code) as [[[source|] [err|]]|]; by simplify_eq.
Qed.

(** X10.  A source returned by [GetSourceFromTemplate] is the decoded payload
    of a [K8sNativeValidation] entry of the single target, it passes
    [Validate], and none of the accessors fails on it. *)
Theorem extracted_source_is_valid ct source :
  schema.GetSourceFromTemplate ct = Ret (Some source, None) →
  (∃ target code payload raw,
     templates.ConstraintTemplate.Targets ct = [target]
     ∧ code ∈ templates.Target.Code target
     ∧ templates.Code.Engine code = schema.Name
     ∧ templates.Code.Source code = Some payload
     ∧ templates.Anything.Value payload = VMap raw
     ∧ runtime.FromUnstructured raw schema.Source.zero = (source, None))
  ∧ schema.Validate source = None
  ∧ (schema.GetMatchConditions source).2 = None
  ∧ (schema.GetV1Alpha1MatchConditions source).2 = None
  ∧ (schema.GetVariables source).2 = None
  ∧ (schema.GetV1Alpha1Variables source).2 = None
  ∧ (schema.GetFailurePolicy source).2 = None
  ∧ (schema.GetV1alpha1FailurePolicy source).2 = None.
Proof.
  intros Hret.
  assert (Hlen : length (templates.ConstraintTemplate.Targets ct) = 1).
  { unfold schema.GetSourceFromTemplate in Hret. by case_bool_decide; [|lia]. }
  destruct (one_target _ Hlen) as [target Htargets].
  rewrite (GetSourceFromTemplate_unfold _ _ Htargets) in Hret.
  destruct (codes_first_match (templates.Target.Code target))
    as [Hall|(skipped & code & rest & Hcodes & Hskip & Hengine)].
  { unfold schema.GetSourceFromTemplate, singleTarget in Hret. simpl in Hret.
    by rewrite (GetSourceFromTemplate_range_none _ Hall) in Hret. }
  rewrite Hcodes, GetSourceFromTemplate_single in Hret by done.
  pose proof (GetSource_cases code) as Hcases. rewrite Hret in Hcases.
  destruct Hcases as (Hvalid & payload & raw & Hsource & Hvalue & Hdecode).
  split.
  { exists target, code, payload, raw. repeat split; try done.
    rewrite Hcodes. apply elem_of_app. right. left. }
  split; [done|].
  unfold schema.Validate in Hvalid.
  unfold schema.GetMatchConditions, schema.GetV1Alpha1MatchConditions,
    schema.GetVariables, schema.GetV1Alpha1Variables.
  destruct (schema.validateMatchConditions source); [done|].
  destruct (schema.validateVariables source); [done|].
  destruct (schema.GetFailurePolicy source).2 eqn:Hfp; [done|].
  repeat split.
  unfold schema.GetFailurePolicy in Hfp. unfold schema.GetV1alpha1FailurePolicy.
  destruct (schema.Source.FailurePolicy source) as [fp|]; [|done].
  destruct (String.eqb fp admissionv1.Fail); [done|].
  by destruct (String.eqb fp admissionv1.Ignore).
Qed.

(** X11.  A normal return of [GetSource] or [GetSourceFromTemplate] carries
    either a source or an error, never both and never neither. *)
Theorem source_or_error ct code :
  (∀ source err, schema.GetSource code = Ret (source, err) →
                 (is_Some source ↔ err = None))
  ∧ (∀ source err, schema.GetSourceFromTemplate ct = Ret (source, err) →
                   (is_Some source ↔ err = None)).
Proof.
  assert (Hcode : ∀ code source err, schema.GetSource code = Ret (source, err) →
                                     (is_Some source ↔ err = None)).
  { intros c source err Hret. pose proof (GetSource_cases c) as Hcases.
    rewrite Hret in Hcases.
    destruct source, err; try done; split; try done; by intros [? ?]. }
  split; [apply Hcode|].
  intros source err Hret.
  unfold schema.GetSourceFromTemplate in Hret.
  case_bool_decide as Hlen.
  { simplify_eq. split; [by intros [? ?]|done]. }
  assert (Hone : length (templates.ConstraintTemplate.Targets ct) = 1) by lia.
  destruct (one_target _ Hone) as [target Htargets].
  rewrite Htargets in Hret. simpl in Hret.
  destruct (codes_first_match (templates.Target.Code target))
    as [Hall|(skipped & c & rest & Hcodes & Hskip & Hengine)].
  { rewrite (GetSourceFromTemplate_range_none _ Hall) in Hret. simplify_eq.
    split; [by intros [? ?]|done]. }
  rewrite Hcodes, GetSourceFromTemplate_range_first in Hret by done.
  pose proof (GetSource_cases c) as Hcases.
  destruct (schema.GetSource c) as [[[s|] [e|]]|]; simplify_eq;
    first [done | split; [by intros [? ?]|done] | split; [done|by eexists]].
Qed.

(** X12.  [GetSourceFromTemplate] panics exactly when the template has one
    target whose first [K8sNativeValidation] code entry has a nil [Source];
    the index into [Targets] is always in range. *)
Theorem GetSourceFromTemplate_panics_iff ct :
  (∃ reason, schema.GetSourceFromTemplate ct = Panic reason)
  ↔ ∃ target skipped code rest,
      templates.ConstraintTemplate.Targets ct = [target]
      ∧ templates.Target.Code target = skipped ++ code :: rest
      ∧ Forall (λ code, templates.Code.Engine code ≠ schema.Name) skipped
      ∧ templates.Code.Engine code = schema.Name
      ∧ templates.Code.Source code = None.
Proof.
  split.
  - intros [reason Hpanic].
    assert (Hlen : length (templates.ConstraintTemplate.Targets ct) = 1).
    { unfold schema.GetSourceFromTemplate in Hpanic. by case_bool_decide; [|lia]. }
    destruct (one_target _ Hlen) as [target Htargets].
    rewrite (GetSourceFromTemplate_unfold _ _ Htargets) in Hpanic.
    destruct (codes_first_match (templates.Target.Code target))
      as [Hall|(skipped & code & rest & Hcodes & Hskip & Hengine)].
    { unfold schema.GetSourceFromTemplate, singleTarget in Hpanic. simpl in Hpanic.
      by rewrite (GetSourceFromTemplate_range_none _ Hall) in Hpanic. }
    exists target, skipped, code, rest. repeat split; try done.
    rewrite Hcodes, GetSourceFromTemplate_single in Hpanic by done.
    pose proof (GetSource_cases code) as Hcases. by rewrite Hpanic in Hcases.
  - intros (target & skipped & code & rest & Htargets & Hcodes & Hskip & Hengine & Hnil).
    rewrite (GetSourceFromTemplate_unfold _ _ Htargets), Hcodes,
      GetSourceFromTemplate_single by done.
    unfold schema.GetSource. rewrite Hnil. by eexists.
Qed.

(** X13.  The path of the tests: when the converter restores [source] from the
    map it produced for it, [MustToUnstructured] returns that map, and a
    template carrying it in its [K8sNativeValidation] entry yields [source]
    again if [source] passes [Validate], and the error of [Validate] with a
    nil source otherwise. *)
Theorem unstructured_round_trip source raw name kind :
  runtime.ToUnstructured source = (raw, None) →
  runtime.FromUnstructured raw schema.Source.zero = (source, None) →
  schema.MustToUnstructured (Some source) = Ret (Some raw)
  ∧ schema.GetSourceFromTemplate
      (singleTarget name kind
         [templates.Code.mk schema.Name (Some (templates.Anything.mk (VMap raw)))])
    = match schema.Validate source with
      | Some err => Ret (None, Some err)
      | None => Ret (Some source, None)
      end.
Proof.
  intros Hencode Hdecode. split.
  - unfold schema.MustToUnstructured. by rewrite Hencode.
  - transitivity (schema.GetSource
                    (templates.Code.mk schema.Name
                       (Some (templates.Anything.mk (VMap raw))))).
    { by apply (GetSourceFromTemplate_single name kind [] _ []). }
    unfold schema.GetSource. simpl. rewrite Hdecode.
    by destruct (schema.Validate source).
Qed.

End SourceExtraction.

Lemma first_entry_decides_witness :
  @schema.GetSourceFromTemplate fixtures.converter
    (singleTarget "somepolicy" "SomePolicy"
       [templates.Code.mk "Rego" None;
        templates.Code.mk schema.Name (Some (templates.Anything.mk (VString "1 == 1")));
        templates.Code.mk schema.Name
          (Some (templates.Anything.mk (VMap (fixtures.encodeSource fixtures.validSource))))])
  = Ret (None, Some (Var ErrBadType)).
Proof.
  exact (@first_entry_decides fixtures.converter "somepolicy" "SomePolicy"
           [templates.Code.mk "Rego" None]
           (templates.Code.mk schema.Name (Some (templates.Anything.mk (VString "1 == 1"))))
           [templates.Code.mk schema.Name
              (Some (templates.Anything.mk (VMap (fixtures.encodeSource fixtures.validSource))))]
           ltac:(repeat constructor; discriminate) eq_refl).
Defined.

Lemma extracted_source_is_valid_witness :
  schema.Validate fixtures.validSource = None
  ∧ (schema.GetV1Alpha1Variables fixtures.validSource).2 = None.
Proof.
  destruct (@extracted_source_is_valid fixtures.converter
              (fixtures.templateOf "SomePolicy" fixtures.validSource) fixtures.validSource)
    as (_ & Hvalid & _ & _ & _ & Hvars & _).
  - vm_compute. reflexivity.
  - split; [exact Hvalid|exact Hvars].
Defined.

Lemma unstructured_round_trip_witness :
  @schema.GetSourceFromTemplate fixtures.converter
    (singleTarget "somepolicy" "SomePolicy"
       [templates.Code.mk schema.Name
          (Some (templates.Anything.mk (VMap (fixtures.encodeSource fixtures.validSource))))])
  = Ret (Some fixtures.validSource, None).
Proof.
  destruct (@unstructured_round_trip fixtures.converter fixtures.validSource
              (fixtures.encodeSource fixtures.validSource) "somepolicy" "SomePolicy")
    as [_ Hsource].
  - reflexivity.
  - vm_compute. reflexivity.
  - exact Hsource.
Defined.

Lemma source_or_error_witness :
  is_Some (Some fixtures.validSource) ↔ (None : option error) = None.
Proof.
  apply (@source_or_error fixtures.converter
           (fixtures.templateOf "SomePolicy" fixtures.validSource)
           (templates.Code.mk schema.Name None)).
  vm_compute. reflexivity.
Defined.

Lemma GetSourceFromTemplate_panics_iff_witness :
  ∃ reason,
    @schema.GetSourceFromTemplate fixtures.converter
      (singleTarget "somepolicy" "SomePolicy"
         [templates.Code.mk "Rego" None; templates.Code.mk schema.Name None])
    = Panic reason.
Proof.
  apply (@GetSourceFromTemplate_panics_iff fixtures.converter).
  exists (templates.Target.mk
            [templates.Code.mk "Rego" None; templates.Code.mk schema.Name None]),
    [templates.Code.mk "Rego" None], (templates.Code.mk schema.Name None), [].
  split; [reflexivity|]. split; [reflexivity|].
  split; [repeat constructor; discriminate|]. split; reflexivity.
Defined.

(** ** The text of the variable error *)

(** X14.  When some variable name is invalid, [validateVariables] reports the
    first invalid entry: with the reserved prefix, the text names the entry
    and the quoted prefix; otherwise the entry is named [params] and the text
    names that reserved keyword, plain and quoted. *)
Theorem validateVariables_reports_first (in_ : schema.Source.t) :
  Exists invalidVariable (schema.Source.Variables in_) →
  ∃ l1 v l2,
    schema.Source.Variables in_ = l1 ++ v :: l2
    ∧ Forall (λ v, ¬ invalidVariable v) l1
    ∧ invalidVariable v
    ∧ schema.validateVariables in_
      = Some (if HasPrefix (schema.Variable_.Name v) schema.ReservedPrefix
              then Wrap ErrBadVariable
                     (": " +:+ schema.Variable_.Name v
                      +:+ " is not a valid variable; cannot have "
                      +:+ String dquote (schema.ReservedPrefix +:+ String dquote EmptyString)
                      +:+ " as a prefix")
              else Wrap ErrBadVariable
                     (": params an invalid variable name, "
                      +:+ String dquote ("params" +:+ String dquote EmptyString)
                      +:+ " is a reserved keyword")).
Proof.
  intros Hex.
  destruct (validateVariables_range_first _ Hex) as (l1 & v & l2 & Hl & Hl1 & Hv & Hres).
  exists l1, v, l2. split; [done|]. split; [done|]. split; [done|].
  unfold schema.validateVariables. rewrite Hres. reflexivity.
Qed.

Lemma validateVariables_reports_first_witness :
  ∃ l1 v l2,
    schema.Source.Variables fixtures.clobberingParamsSource = l1 ++ v :: l2
    ∧ Forall (λ v, ¬ invalidVariable v) l1
    ∧ invalidVariable v
    ∧ schema.validateVariables fixtures.clobberingParamsSource
      = Some (if HasPrefix (schema.Variable_.Name v) schema.ReservedPrefix
              then Wrap ErrBadVariable
                     (": " +:+ schema.Variable_.Name v
                      +:+ " is not a valid variable; cannot have "
                      +:+ String dquote (schema.ReservedPrefix +:+ String dquote EmptyString)
                      +:+ " as a prefix")
              else Wrap ErrBadVariable
                     (": params an invalid variable name, "
                      +:+ String dquote ("params" +:+ String dquote EmptyString)
                      +:+ " is a reserved keyword")).
Proof.
  apply (validateVariables_reports_first fixtures.clobberingParamsSource).
  apply Exists_cons_hd. right. reflexivity.
Defined.
